(** * nilmtk.electricitymeter: identity, topology and registry behaviour

    A shallow embedding of [nilmtk/electricitymeter.py].  Meter objects live
    in a heap and are named by references, because the class keeps two
    process-wide dictionaries ([ElectricityMeter.meters] and
    [ElectricityMeter.meter_devices]) that hold references to them.  Methods
    are computations in a state-and-exception monad over that world; the
    world survives a raise, as it does in Python. *)

From Stdlib Require Import ZArith String List.
From stdpp Require Import base option list gmap strings fin_maps pretty.

Local Open Scope string_scope.
Local Open Scope list_scope.
Local Open Scope Z_scope.

(** ** Identities *)

(** [ElectricityMeterID = namedtuple('ElectricityMeterID',
    ['instance', 'building', 'dataset'])].  The fields are whatever
    [md.get(...)] returned, so each may be Python's [None]. *)
Record ElectricityMeterID := MkID {
  instance : option Z;
  building : option Z;
  dataset : option string
}.

#[global] Instance ElectricityMeterID_eq_dec : EqDecision ElectricityMeterID.
Proof. solve_decision. Defined.

#[global] Instance ElectricityMeterID_countable : Countable ElectricityMeterID.
Proof.
  refine (inj_countable'
            (fun i => (instance i, building i, dataset i))
            (fun t => MkID t.1.1 t.1.2 t.2) _).
  by intros [].
Defined.

(** References to ElectricityMeter objects. *)
Definition loc := positive.

(** ** Exceptions and results *)

(** The exceptions this module raises itself or lets through.  [External]
    stands for whatever a collaborator (store, key parser, appliance,
    pipeline) raises. *)
Inductive exn :=
  | ValueError (msg : string)
  | RuntimeError (msg : string)
  | AssertionError
  | KeyError (key : string)
  | KeyError_id (key : ElectricityMeterID)
  | AttributeError (attr : string)
  | External (cls : string).

(** The Python class of an exception: what an [except] clause selects on. *)
Definition exn_class (e : exn) : string :=
  match e with
  | ValueError _ => "ValueError"
  | RuntimeError _ => "RuntimeError"
  | AssertionError => "AssertionError"
  | KeyError _ | KeyError_id _ => "KeyError"
  | AttributeError _ => "AttributeError"
  | External cls => cls
  end.

Inductive result (A : Type) :=
  | Ok (a : A)
  | Raise (e : exn).
Arguments Ok {A} a.
Arguments Raise {A} e.

(** ** Measurements and device profiles *)

(** [nilmtk.measurement] is imported, not defined here.  The class docstring
    names [Power('active')] and [Voltage()]; [OtherMeasurement] is any
    further measurement class that is not a [Power]. *)
Inductive Measurement :=
  | Power (ac_type : string)
  | Voltage
  | OtherMeasurement (cls : string).

(** [isinstance(m, Power)] *)
Definition isinstance_Power (m : Measurement) : bool :=
  match m with Power _ => true | _ => false end.

(** A value of the [meter_devices] dict.  Only ['measurements'] is read by
    this module; the float-valued entries (sample periods, limits) are
    never inspected and are left out. *)
Record DeviceProfile := MkDevice {
  manufacturer : string;
  model : string;
  measurements : option (list Measurement)
}.

(** ** Collaborators outside this file *)

(** [nilmtk.datastore.Key]: an object parsed from a key string, with a
    [meter] attribute and further address fields. *)
Record Key (Addr : Type) := MkKey {
  meter : option Z;
  addr : Addr
}.
Arguments MkKey {Addr} meter addr.
Arguments meter {Addr} k.
Arguments addr {Addr} k.

(** [new_key_obj = deepcopy(key_obj); new_key_obj.meter = chan] *)
Definition with_meter {Addr} (key_obj : Key Addr) (chan : Z) : Key Addr :=
  {| meter := Some chan; addr := addr key_obj |}.

Class KeyClass := {
  KeyAddr : Type;
  (** [Key(string)] *)
  Key_init : string -> result (Key KeyAddr);
  (** [str(key_obj)] *)
  Key_str : Key KeyAddr -> string
}.

(** [nilmtk.appliance.Appliance] and the metadata it is built from. *)
Class ApplianceClass := {
  ApplianceMetadata : Type;
  Appliance : Type;
  (** [Appliance(appliance_metadata)] *)
  Appliance_init : ApplianceMetadata -> result Appliance
}.

(** ** Metadata, stores and meters *)

Section DataModel.
Context `{ApplianceClass}.

(** The metadata dict, restricted to the keys this module reads or writes,
    each at the type the class docstring gives it.  [None] is what
    [md.get(key)] returns when the key is missing.  ['meter_devices'] is
    only present in the dataset-level metadata stored under ['/']. *)
Record Metadata := MkMetadata {
  md_instance : option Z;
  md_building : option Z;
  md_dataset : option string;
  md_submeter_of : option Z;
  md_upstream_meter_in_building : option Z;
  md_additional_channels : option (list Z);
  md_device_model : option string;
  md_device : option DeviceProfile;
  md_appliances : option (list ApplianceMetadata);
  md_meter_devices : option (gmap string DeviceProfile)
}.

(** [{}] *)
Definition empty_metadata : Metadata :=
  MkMetadata None None None None None None None None None None.

(** [metadata['device'] = d] *)
Definition set_md_device (d : DeviceProfile) (md : Metadata) : Metadata :=
  MkMetadata (md_instance md) (md_building md) (md_dataset md)
             (md_submeter_of md) (md_upstream_meter_in_building md)
             (md_additional_channels md) (md_device_model md) (Some d)
             (md_appliances md) (md_meter_devices md).

(** [nilmtk.DataStore]: only [load_metadata] is used.  A store is taken
    to hand out a new dict on every call, so the write to
    [metadata['device']] in [load] is not seen by the store. *)
Record DataStore := MkStore {
  load_metadata : string -> result Metadata
}.

(** The instance attributes set by [__init__]. *)
Record ElectricityMeter := MkMeter {
  store : option DataStore;
  keys : list string;
  appliances : list Appliance;
  metadata : Metadata
}.

Definition set_store (s : DataStore) (m : ElectricityMeter) :=
  MkMeter (Some s) (keys m) (appliances m) (metadata m).
Definition set_keys (ks : list string) (m : ElectricityMeter) :=
  MkMeter (store m) ks (appliances m) (metadata m).
Definition set_appliances (l : list Appliance) (m : ElectricityMeter) :=
  MkMeter (store m) (keys m) l (metadata m).
Definition set_metadata (md : Metadata) (m : ElectricityMeter) :=
  MkMeter (store m) (keys m) (appliances m) md.

(** Pipeline nodes imported from [nilmtk.pipeline]. *)
Inductive Node := ClipNode | EnergyNode | LocateGoodSectionsNode.

(** Collaborator objects created while a method runs. *)
Inductive Created :=
  | NewNode (n : Node)
  | NewPipeline (nodes : list Node).

(** The process: the objects, the two static class attributes, and the
    log of collaborator objects created so far (oldest first). *)
Record World := MkWorld {
  heap : gmap loc ElectricityMeter;
  meter_devices : gmap string DeviceProfile;
  meters : gmap ElectricityMeterID loc;
  created : list Created
}.

Definition set_heap (f : gmap loc ElectricityMeter -> gmap loc ElectricityMeter)
    (w : World) : World :=
  MkWorld (f (heap w)) (meter_devices w) (meters w) (created w).
Definition set_meter_devices
    (f : gmap string DeviceProfile -> gmap string DeviceProfile)
    (w : World) : World :=
  MkWorld (heap w) (f (meter_devices w)) (meters w) (created w).
Definition set_meters
    (f : gmap ElectricityMeterID loc -> gmap ElectricityMeterID loc)
    (w : World) : World :=
  MkWorld (heap w) (meter_devices w) (f (meters w)) (created w).
Definition set_created (f : list Created -> list Created) (w : World) : World :=
  MkWorld (heap w) (meter_devices w) (meters w) (f (created w)).

(** A fresh interpreter: nothing allocated, both class dicts [{}]. *)
Definition empty_world : World := MkWorld ∅ ∅ ∅ [].

(** ** The monad of methods *)

Definition M (A : Type) : Type := World -> result A * World.

Definition ret {A} (a : A) : M A := fun w => (Ok a, w).
Definition raise {A} (e : exn) : M A := fun w => (Raise e, w).
Definition bind {A B} (c : M A) (k : A -> M B) : M B :=
  fun w =>
    match c w with
    | (Ok a, w') => k a w'
    | (Raise e, w') => (Raise e, w')
    end.
Definition lift {A} (r : result A) : M A := fun w => (r, w).
Definition gets {A} (f : World -> A) : M A := fun w => (Ok (f w), w).
Definition modify (f : World -> World) : M unit := fun w => (Ok tt, f w).
End DataModel.

Notation "'let*' x ':=' c 'in' k" := (bind c (fun x => k))
  (at level 10, x name, c at level 100, k at level 200).
Notation "c ';;' k" := (bind c (fun _ => k))
  (at level 100, k at level 200, right associativity).

(** [nilmtk.pipeline.Pipeline] and the values it produces.  [Pipeline_run
    nodes meter load_kwargs] is [pipeline.run(meter=meter, **load_kwargs)]
    followed by reading [pipeline.results]; [truediv] is the [/] of the
    result objects (the module has [from __future__ import division]). *)
Class PipelineClass `{ApplianceClass} := {
  Artifact : Type;
  Pipeline_run : list Node -> loc -> gmap string Artifact -> M (gmap string Artifact);
  truediv : Artifact -> Artifact -> result Artifact
}.

(** [nilmtk.hashable.Hashable], the base class: the names it binds and what
    calling one of them on a meter does. *)
Class HashableClass `{PipelineClass} := {
  Hashable_dict : list string;
  Hashable_call : string -> loc -> M Artifact
}.

(** ** The class ElectricityMeter *)

(** Names bound in the body of [class ElectricityMeter], in source order. *)
Definition class_dict : list string :=
  [ "meter_devices"; "meters"; "__init__"; "load"; "identifier";
    "upstream_meter"; "_load_meter_devices"; "save"; "device";
    "available_ac_types"; "__repr__"; "matches"; "power_series";
    "voltage_series"; "total_energy"; "dropout_rate"; "good_sections";
    "total_on_duration"; "on_durations"; "activity_distribution"; "when_on";
    "on_off_events"; "discrete_appliance_activations";
    "proportion_of_energy"; "contiguous_sections"; "clean_and_export";
    "_run_pipeline" ].

(** Names bound on each instance by [__init__]. *)
Definition instance_dict : list string :=
  [ "store"; "keys"; "appliances"; "metadata" ].

Section Methods.
Context `{KeyClass} `{HashableClass}.

(** Dereference [self].  Every reference handed out by [__init__] is in
    the heap; a dangling one is reported as a collaborator failure. *)
Definition get_obj (self : loc) : M ElectricityMeter :=
  fun w =>
    match heap w !! self with
    | Some m => (Ok m, w)
    | None => (Raise (External "ReferenceError"), w)
    end.

(** Assign to attributes of [self]. *)
Definition update_obj (self : loc) (f : ElectricityMeter -> ElectricityMeter)
    : M unit :=
  modify (set_heap (alter f self)).

(** [for x in l: body(x)] *)
Fixpoint for_each {A} (l : list A) (body : A -> M unit) : M unit :=
  match l with
  | [] => ret tt
  | x :: l' => body x ;; for_each l' body
  end.

(** [identifier] (property), as a function of the object's metadata. *)
Definition identifier (m : ElectricityMeter) : ElectricityMeterID :=
  let md := metadata m in
  MkID (md_instance md) (md_building md) (md_dataset md).

(** [ElectricityMeter.meters[self.identifier] = self] *)
Definition register (self : loc) : M unit :=
  let* m := get_obj self in
  modify (set_meters <[identifier m := self]>).

(** [ElectricityMeter(metadata)]: allocate the object and run [__init__]. *)
Definition __init__ (metadata : option Metadata) : M loc :=
  let* self := gets (fun w => fresh (dom (heap w))) in
  modify (set_heap <[self :=
    {| store := None;
       keys := [];
       appliances := [];
       metadata := match metadata with
                   | None => empty_metadata
                   | Some md => md
                   end |}]>) ;;
  register self ;;
  ret self.

(** [_load_meter_devices] (classmethod); [dict.update] lets the new
    entries win. *)
Definition _load_meter_devices (store : DataStore) : M unit :=
  let* dataset_metadata := lift (load_metadata store "/") in
  modify (set_meter_devices
            (fun devices =>
               default ∅ (md_meter_devices dataset_metadata) ∪ devices)).

(** [d[k]] on a string-keyed dict. *)
Definition getitem {V} (d : gmap string V) (k : string) : M V :=
  match d !! k with
  | Some v => ret v
  | None => raise (KeyError k)
  end.

(** [self.metadata['device_model']] *)
Definition get_device_model (md : Metadata) : M string :=
  match md_device_model md with
  | Some device_model => ret device_model
  | None => raise (KeyError "device_model")
  end.

(** [load(self, store, key)] for a [key] that is a [str]: the check
    [assert isinstance(key, str)] on the first line is made in [load_call]
    below; [print] writes to stdout, which is not part of the world. *)
Definition load (self : loc) (store : DataStore) (key : string) : M unit :=
  update_obj self (set_store store) ;;
  let* md := lift (load_metadata store key) in
  update_obj self (set_metadata md) ;;
  update_obj self (set_keys [key]) ;;
  let* key_obj := lift (Key_init key) in
  match meter key_obj with
  | None => raise AssertionError
  | Some _ =>
    (let* m := get_obj self in
     for_each (default [] (md_additional_channels (metadata m)))
       (fun chan =>
          let new_key_obj := with_meter key_obj chan in
          update_obj self
            (fun m => set_keys (keys m ++ [Key_str new_key_obj]) m))) ;;
    _load_meter_devices store ;;
    let* m := get_obj self in
    let* device_model := get_device_model (metadata m) in
    let* devices := gets meter_devices in
    let* d := getitem devices device_model in
    update_obj self (fun m => set_metadata (set_md_device d (metadata m)) m) ;;
    (let* m := get_obj self in
     for_each (default [] (md_appliances (metadata m)))
       (fun appliance_metadata =>
          let* a := lift (Appliance_init appliance_metadata) in
          update_obj self
            (fun m => set_appliances (appliances m ++ [a]) m))) ;;
    register self
  end.

(** [upstream_meter] (property) *)
Definition upstream_meter (self : loc) : M loc :=
  let* m := get_obj self in
  match md_submeter_of (metadata m) with
  | None =>
    raise (ValueError "This meter has no 'submeter_of' metadata attribute.")
  | Some submeter_of =>
    if submeter_of <=? 0 then
      raise (ValueError "'submeter_of' must be >= 1.")
    else
      let upstream_meter_in_building :=
        match md_upstream_meter_in_building (metadata m) with
        | None => building (identifier m)
        | Some b => Some b
        end in
      let id_of_upstream :=
        {| instance := Some submeter_of;
           building := upstream_meter_in_building;
           dataset := dataset (identifier m) |} in
      let* registry := gets meters in
      match registry !! id_of_upstream with
      | Some upstream_meter => ret upstream_meter
      | None => raise (KeyError_id id_of_upstream)
      end
  end.

(** [device] (property) *)
Definition device (self : loc) : M DeviceProfile :=
  let* m := get_obj self in
  let* device_model := get_device_model (metadata m) in
  let* devices := gets meter_devices in
  getitem devices device_model.

(** [[m.ac_type for m in measurements if isinstance(m, Power)]]: the
    comprehension walks the list once and appends to the result. *)
Fixpoint ac_types_of (measurements : list Measurement) : list string :=
  match measurements with
  | [] => []
  | Power ac_type :: rest => ac_type :: ac_types_of rest
  | _ :: rest => ac_types_of rest
  end.

(** [available_ac_types(self)] *)
Definition available_ac_types (self : loc) : M (list string) :=
  let* d := device self in
  match measurements d with
  | Some ms => ret (ac_types_of ms)
  | None => raise (KeyError "measurements")
  end.

(** A collaborator constructor call, recorded in the log. *)
Definition create (c : Created) : M unit :=
  modify (set_created (fun log => log ++ [c])).

Definition store_not_set : string :=
  "'meter.store' is not set! Cannot process data without a DataStore!".

(** [_run_pipeline(self, nodes, **load_kwargs)].  The keyword names are
    taken not to collide with the [meter] argument of [pipeline.run]:
    Python rejects a call that passes a name twice with [TypeError]. *)
Definition _run_pipeline (self : loc) (nodes : list Node)
    (load_kwargs : gmap string Artifact) : M (gmap string Artifact) :=
  let* m := get_obj self in
  match store m with
  | None => raise (RuntimeError store_not_set)
  | Some _ =>
    create (NewPipeline nodes) ;;
    Pipeline_run nodes self load_kwargs
  end.

(** [total_energy(self, **load_kwargs)].  The keyword names are taken not
    to collide with the [nodes] parameter of [_run_pipeline]. *)
Definition total_energy (self : loc) (load_kwargs : gmap string Artifact)
    : M Artifact :=
  create (NewNode ClipNode) ;;
  create (NewNode EnergyNode) ;;
  let nodes := [ClipNode; EnergyNode] in
  let* results := _run_pipeline self nodes load_kwargs in
  getitem results "energy".

(** [good_sections(self)] *)
Definition good_sections (self : loc) : M Artifact :=
  create (NewNode LocateGoodSectionsNode) ;;
  let nodes := [LocateGoodSectionsNode] in
  let* results := _run_pipeline self nodes ∅ in
  getitem results "good_sections".

(** [obj.name()] for a name bound neither on the instance nor in the class
    body: Python goes on to the base class. *)
Definition call_inherited (name : string) (obj : loc) : M Artifact :=
  if bool_decide (name ∈ Hashable_dict) then Hashable_call name obj
  else raise (AttributeError name).

(** [proportion_of_energy(self, mains)].  [good_timeframes] is not among
    [instance_dict] or [class_dict], so the call resolves in the base
    class.  The operands of [/] are evaluated left to right. *)
Definition proportion_of_energy (self mains : loc) : M Artifact :=
  let* good_mains_timeframes := call_inherited "good_timeframes" mains in
  let* e_self := total_energy self {["timeframes" := good_mains_timeframes]} in
  let* e_mains := total_energy mains {["timeframes" := good_mains_timeframes]} in
  lift (truediv e_self e_mains).

(** The world [load] has reached once it has set [store], [metadata] and
    [keys], before the key is parsed. *)
Definition after_parse (w : World) (self : loc) (m : ElectricityMeter)
    (store : DataStore) (key : string) (md : Metadata) : World :=
  set_heap <[self := {| store := Some store; keys := [key];
                        appliances := appliances m; metadata := md |}]> w.
End Methods.

(** ** A small dataset

    Concrete collaborators and a two-meter building, used to run the
    methods: keys look like [/building1/elec/meter2], appliances are named
    by strings, pipeline results are integers. *)
Module Example.

Definition key_string (k : Key Z) : string :=
  "/building" +:+ pretty (addr k) +:+
  match meter k with
  | Some n => "/elec/meter" +:+ pretty n
  | None => ""
  end.

Definition parse_key (s : string) : result (Key Z) :=
  if decide (s = "/building1/elec/meter1") then Ok (MkKey (Some 1) 1)
  else if decide (s = "/building1/elec/meter2") then Ok (MkKey (Some 2) 1)
  else if decide (s = "/building1") then Ok (MkKey None 1)
  else Raise (External "ValueError").

#[global] Instance key_class : KeyClass :=
  {| KeyAddr := Z; Key_init := parse_key; Key_str := key_string |}.

#[global] Instance appliance_class : ApplianceClass :=
  {| ApplianceMetadata := string; Appliance := string; Appliance_init := Ok |}.

#[global] Instance pipeline_class : PipelineClass :=
  {| Artifact := Z;
     Pipeline_run := fun _ _ _ => ret {[ "energy" := 0; "good_sections" := 0 ]};
     truediv := fun a b =>
       if b =? 0 then Raise (External "ZeroDivisionError") else Ok (a `div` b) |}.

(** A base class that binds the hashing protocol and nothing else. *)
#[global] Instance hashable_class : HashableClass :=
  {| Hashable_dict := [ "__eq__"; "__hash__"; "__repr__" ];
     Hashable_call := fun _ _ => raise (External "NotImplementedError") |}.

Definition EnviR : DeviceProfile :=
  MkDevice "Current Cost" "EnviR" (Some [Power "apparent"; Voltage; Power "active"]).

Definition EnviR_v2 : DeviceProfile :=
  MkDevice "Current Cost" "EnviR" (Some [Power "active"]).

Definition site_md : Metadata :=
  MkMetadata (Some 1) (Some 1) (Some "D") None None None
             (Some "EnviR") None None None.

Definition sub_md : Metadata :=
  MkMetadata (Some 2) (Some 1) (Some "D") (Some 1) None (Some [3])
             (Some "EnviR") None (Some ["fridge"]) None.

Definition root_md (d : DeviceProfile) : Metadata :=
  MkMetadata None None None None None None None None None
             (Some {[ "EnviR" := d ]}).

Definition zero_md : Metadata :=
  MkMetadata (Some 2) (Some 1) (Some "D") (Some 0) None None None None None None.

(** A store holding the dataset metadata and two meters; [/building1]
    holds the metadata of the sub-meter under a key without a meter. *)
Definition hdf (d : DeviceProfile) : DataStore :=
  {| load_metadata := fun key =>
       if decide (key = "/") then Ok (root_md d)
       else if decide (key = "/building1/elec/meter1") then Ok site_md
       else if decide (key = "/building1/elec/meter2") then Ok sub_md
       else if decide (key = "/building1") then Ok sub_md
       else Raise (KeyError key) |}.

(** [B = ElectricityMeter(site_md); A = ElectricityMeter(sub_md)] *)
Definition B : loc := 1%positive.
Definition A : loc := 2%positive.
Definition two_meters : World :=
  snd ((__init__ (Some site_md) ;; __init__ (Some sub_md)) empty_world).

(** The site meter loaded from the store, then the sub-meter as well. *)
Definition site_loaded : World :=
  snd (load B (hdf EnviR) "/building1/elec/meter1" two_meters).
Definition loaded : World :=
  snd (load A (hdf EnviR) "/building1/elec/meter2" site_loaded).

(** A third meter, built without metadata next to the two and then loaded
    from the key of meter 2, whose identifier the sub-meter [A] holds. *)
Definition C : loc := 3%positive.
Definition three_meters : World := snd (__init__ None two_meters).
Definition reloaded : World :=
  snd (load C (hdf EnviR) "/building1/elec/meter2" three_meters).

(** A meter without [submeter_of], and one with [submeter_of = 0]. *)
Definition lonely : World := snd (__init__ (Some site_md) empty_world).
Definition grounded : World := snd (__init__ (Some zero_md) empty_world).

End Example.

(** ** Matching appliances *)

(** [Appliance.matches(key)], from [nilmtk.appliance]: [key] is a dict of
    constraints, the answer a bool. *)
Class MatchClass `{ApplianceClass} := {
  MatchKey : Type;
  Appliance_matches : Appliance -> MatchKey -> result bool
}.

Section Matching.
Context `{MatchClass}.

(** The loop of [matches]: [return True] at the first appliance that
    matches, [return False] after the last. *)
Fixpoint matches_loop (l : list Appliance) (key : MatchKey) : result bool :=
  match l with
  | [] => Ok false
  | appliance :: rest =>
    match Appliance_matches appliance key with
    | Raise e => Raise e
    | Ok true => Ok true
    | Ok false => matches_loop rest key
    end
  end.

(** [matches(self, key)] *)
Definition matches (self : loc) (key : MatchKey) : M bool :=
  let* m := get_obj self in
  lift (matches_loop (appliances m) key).
End Matching.

(** ** Calling [load] with any argument *)

(** What a caller passes as [key]: a [str], or an object of another class
    (named by that class). *)
Inductive KeyArg :=
  | StrArg (s : string)
  | OtherArg (cls : string).

Section LoadCall.
Context `{KeyClass} `{ApplianceClass}.

(** The call [self.load(store, key)]: [assert isinstance(key, str)] is the
    first statement, before anything is assigned; a [str] goes on to the
    rest of the body. *)
Definition load_call (self : loc) (store : DataStore) (key : KeyArg) : M unit :=
  match key with
  | StrArg s => load self store s
  | OtherArg _ => raise AssertionError
  end.
End LoadCall.

(** ** Statements about what a method leaves alone *)

Section Frames.
Context `{KeyClass} `{HashableClass}.

(** Every run of [c], whatever it returns or raises, relates the world
    before to the world after by [R]. *)
Definition preserves {A} (R : World -> World -> Prop) (c : M A) : Prop :=
  forall w r w', c w = (r, w') -> R w w'.

(** What a method working on [self] leaves alone: the other objects, the
    set of allocated objects, the log of created collaborators, every name
    of the two class dicts, and every registry entry it does not point at
    [self]. *)
Definition touches_only (self : loc) (w w' : World) : Prop :=
  (forall other, other ≠ self -> heap w' !! other = heap w !! other) /\
  dom (heap w') = dom (heap w) /\
  created w' = created w /\
  dom (meter_devices w) ⊆ dom (meter_devices w') /\
  (forall id, meters w' !! id = meters w !! id \/ meters w' !! id = Some self) /\
  dom (meters w) ⊆ dom (meters w').

(** [self] is allocated and has the store [st] attached. *)
Definition store_attached (self : loc) (st : DataStore) (w : World) : Prop :=
  exists m, heap w !! self = Some m /\ store m = Some st.

(** A step that does not detach the store [st] from [self]. *)
Definition keeps_store (self : loc) (st : DataStore) (w w' : World) : Prop :=
  store_attached self st w -> store_attached self st w'.

(** [load] from the statement after the device merge to its end. *)
Definition load_tail (self : loc) : M unit :=
  let* m := get_obj self in
  let* device_model := get_device_model (metadata m) in
  let* devices := gets meter_devices in
  let* d := getitem devices device_model in
  update_obj self (fun m => set_metadata (set_md_device d (metadata m)) m) ;;
  (let* m := get_obj self in
   for_each (default [] (md_appliances (metadata m)))
     (fun appliance_metadata =>
        let* a := lift (Appliance_init appliance_metadata) in
        update_obj self
          (fun m => set_appliances (appliances m ++ [a]) m))) ;;
  register self.

(** The object [load] has built when it reaches the device merge. *)
Definition with_keys (m : ElectricityMeter) (store : DataStore) (key : string)
    (md : Metadata) (key_obj : Key KeyAddr) : ElectricityMeter :=
  {| store := Some store;
     keys := key :: map (fun chan => Key_str (with_meter key_obj chan))
                        (default [] (md_additional_channels md));
     appliances := appliances m;
     metadata := md |}.

(** The device table after merging the profiles of [dataset_metadata]. *)
Definition merged (dataset_metadata : Metadata) (w : World)
    : gmap string DeviceProfile :=
  default ∅ (md_meter_devices dataset_metadata) ∪ meter_devices w.

(** The world in which [load_tail] starts. *)
Definition at_merge (w : World) (m2 : ElectricityMeter) (self : loc)
    (dataset_metadata : Metadata) : World :=
  {| heap := <[self := m2]> (heap w);
     meter_devices := merged dataset_metadata w;
     meters := meters w;
     created := created w |}.
End Frames.

(** ** More of the small dataset *)
Module Example2.
Import Example.

(** Appliances are matched by name; asking the appliance named [broken]
    fails. *)
#[global] Instance match_class : MatchClass :=
  {| MatchKey := string;
     Appliance_matches := fun a key =>
       if decide (a = "broken") then Raise (External "KeyError")
       else Ok (bool_decide (a = key)) |}.

(** A meter that owns three appliances. *)
Definition kitchen : World :=
  set_heap <[A := MkMeter None [] ["kettle"; "fridge"; "broken"] sub_md]> two_meters.

(** A sub-meter whose [submeter_of] is its own instance. *)
Definition loop_md : Metadata :=
  MkMetadata (Some 2) (Some 1) (Some "D") (Some 2) None None None None None None.
Definition looped : World := snd (__init__ (Some loop_md) empty_world).

(** Metadata naming a device model no store knows. *)
Definition odd_md : Metadata :=
  MkMetadata (Some 2) (Some 1) (Some "D") (Some 1) None (Some [3])
             (Some "Unknown") None None None.

(** A store whose meter 2 names the unknown model, and one without any
    metadata. *)
Definition odd_hdf : DataStore :=
  {| load_metadata := fun key =>
       if decide (key = "/") then Ok (root_md EnviR)
       else if decide (key = "/building1/elec/meter2") then Ok odd_md
       else Raise (KeyError key) |}.
Definition empty_hdf : DataStore :=
  {| load_metadata := fun key => Raise (KeyError key) |}.

(** A second device table, with another model. *)
Definition Eco : DeviceProfile := MkDevice "Eco" "Eye" (Some [Voltage]).
Definition eco_hdf : DataStore :=
  {| load_metadata := fun key =>
       if decide (key = "/") then
         Ok (MkMetadata None None None None None None None None None
                        (Some {[ "Eye" := Eco ]}))
       else Raise (KeyError key) |}.
End Example2.

(** Appliances that cannot all be built: the one named [ghost] fails. *)
Module Example3.
Import Example.

Definition fragile_class : ApplianceClass :=
  {| ApplianceMetadata := string;
     Appliance := string;
     Appliance_init := fun name =>
       if decide (name = "ghost") then Raise (External "KeyError") else Ok name |}.

Definition haunted_md : @Metadata fragile_class :=
  @MkMetadata fragile_class (Some 2) (Some 1) (Some "D") (Some 1) None None
              (Some "EnviR") None (Some ["fridge"; "ghost"; "kettle"]) None.

Definition haunted_root : @Metadata fragile_class :=
  @MkMetadata fragile_class None None None None None None None None None
              (Some {[ "EnviR" := EnviR ]}).

Definition haunted_hdf : @DataStore fragile_class :=
  @MkStore fragile_class
    (fun key =>
       if decide (key = "/") then Ok haunted_root
       else if decide (key = "/building1/elec/meter2") then Ok haunted_md
       else Raise (KeyError key)).

Definition haunted : @World fragile_class :=
  snd (@__init__ fragile_class None (@empty_world fragile_class)).
End Example3.

(** ** Running the methods: basic steps *)

Section Steps.
Context `{KeyClass} `{HashableClass}.

Lemma get_obj_Some (w : World) (self : loc) (m : ElectricityMeter) :
  heap w !! self = Some m -> get_obj self w = (Ok m, w).
Proof. intros Hm. unfold get_obj. by rewrite Hm. Qed.

Lemma alter_as_insert {V} (f : V -> V) (h : gmap loc V) (i : loc) (x : V) :
  h !! i = Some x -> alter f i h = <[i := f x]> h.
Proof.
  intros Hx. apply map_eq. intros j.
  rewrite lookup_alter, lookup_insert.
  case_decide; subst; [by rewrite Hx | done].
Qed.

Lemma update_obj_Some (w : World) (self : loc) (m : ElectricityMeter) f :
  heap w !! self = Some m ->
  update_obj self f w = (Ok tt, set_heap <[self := f m]> w).
Proof.
  intros Hm. unfold update_obj, modify, set_heap.
  by rewrite (alter_as_insert _ _ _ _ Hm).
Qed.

Lemma created_app (w : World) (a b : Created) :
  set_created (fun log => log ++ [b]) (set_created (fun log => log ++ [a]) w)
  = set_created (fun log => log ++ [a; b]) w.
Proof. unfold set_created. simpl. by rewrite <- app_assoc. Qed.
End Steps.

Section Upstream.
Context `{ApplianceClass}.

(** C1.  For a meter whose [submeter_of] is at least 1, [upstream_meter]
    builds the identity (instance = submeter_of, building =
    upstream_meter_in_building if present and the meter's own building
    otherwise, dataset = the meter's own dataset), looks it up in
    [ElectricityMeter.meters], returns the meter registered there, and
    raises [KeyError] (the spec's UnknownMeterError) when none is. *)
Theorem upstream_meter_resolves (w : World) (self : loc)
    (m : ElectricityMeter) (submeter_of : Z) :
  heap w !! self = Some m ->
  md_submeter_of (metadata m) = Some submeter_of ->
  1 <= submeter_of ->
  let id_of_upstream :=
    {| instance := Some submeter_of;
       building := match md_upstream_meter_in_building (metadata m) with
                   | Some b => Some b
                   | None => md_building (metadata m)
                   end;
       dataset := md_dataset (metadata m) |} in
  (forall up, meters w !! id_of_upstream = Some up ->
              upstream_meter self w = (Ok up, w)) /\
  (meters w !! id_of_upstream = None ->
   upstream_meter self w = (Raise (KeyError_id id_of_upstream), w)).
Proof.
  intros Hm Hsub Hge id_of_upstream.
  assert (Hgo : upstream_meter self w =
                match meters w !! id_of_upstream with
                | Some up => (Ok up, w)
                | None => (Raise (KeyError_id id_of_upstream), w)
                end).
  { unfold upstream_meter, bind. rewrite (get_obj_Some _ _ _ Hm), Hsub.
    destruct (Z.leb_spec submeter_of 0) as [Hle|_]; [lia|].
    unfold gets, identifier. simpl. fold id_of_upstream.
    by destruct (meters w !! id_of_upstream). }
  split.
  - intros up Hup. by rewrite Hgo, Hup.
  - intros Hnone. by rewrite Hgo, Hnone.
Qed.

(** C2 (amended).  Without [submeter_of] the property raises [ValueError]
    with the "no 'submeter_of'" message; with a value below 1 it raises
    [ValueError] with the "must be >= 1" message.  One exception class,
    two messages. *)
Theorem upstream_meter_value_errors (w : World) (self : loc)
    (m : ElectricityMeter) :
  heap w !! self = Some m ->
  (md_submeter_of (metadata m) = None ->
   upstream_meter self w =
   (Raise (ValueError "This meter has no 'submeter_of' metadata attribute."), w))
  /\
  (forall n, md_submeter_of (metadata m) = Some n -> n < 1 ->
   upstream_meter self w =
   (Raise (ValueError "'submeter_of' must be >= 1."), w)).
Proof.
  intros Hm. split.
  - intros Hnone. unfold upstream_meter, bind.
    by rewrite (get_obj_Some _ _ _ Hm), Hnone.
  - intros n Hn Hlt. unfold upstream_meter, bind.
    rewrite (get_obj_Some _ _ _ Hm), Hn.
    by destruct (Z.leb_spec n 0) as [_|Hgt]; [|lia].
Qed.
End Upstream.

Section Pipeline.
Context `{PipelineClass}.


End Pipeline.

Section Devices.
Context `{ApplianceClass}.

Lemma device_resolves (w : World) (self : loc) (m : ElectricityMeter)
    (device_model : string) :
  heap w !! self = Some m ->
  md_device_model (metadata m) = Some device_model ->
  device self w =
  match meter_devices w !! device_model with
  | Some d => (Ok d, w)
  | None => (Raise (KeyError device_model), w)
  end.
Proof.
  intros Hm Hmodel. unfold device, bind.
  rewrite (get_obj_Some _ _ _ Hm). unfold get_device_model.
  rewrite Hmodel. unfold ret, gets, getitem.
  by destruct (meter_devices w !! device_model).
Qed.

Lemma ac_types_of_filter (ms : list Measurement) :
  map Power (ac_types_of ms) = List.filter isinstance_Power ms.
Proof.
  induction ms as [|[ac_type| |cls] rest IH]; simpl; [done| |done|done].
  by rewrite IH.
Qed.

(** C6.  When the meter's device profile resolves to a profile with
    measurement list [ms], [available_ac_types] returns tags [acs] such
    that [Power] of each tag, in order, is exactly the sub-list of
    [Power] entries of [ms]: same order, same multiplicity, nothing that
    is not a [Power]. *)
Theorem available_ac_types_power_entries (w : World) (self : loc)
    (m : ElectricityMeter) (device_model : string) (d : DeviceProfile)
    (ms : list Measurement) :
  heap w !! self = Some m ->
  md_device_model (metadata m) = Some device_model ->
  meter_devices w !! device_model = Some d ->
  measurements d = Some ms ->
  exists acs : list string,
    available_ac_types self w = (Ok acs, w) /\
    map Power acs = List.filter isinstance_Power ms.
Proof.
  intros Hm Hmodel Hd Hms. exists (ac_types_of ms). split.
  - unfold available_ac_types, bind.
    rewrite (device_resolves _ _ _ _ Hm Hmodel), Hd. by rewrite Hms.
  - apply ac_types_of_filter.
Qed.

(** C8.  Merging the device profiles of a store a second time leaves the
    world as the first merge left it; the first merge removes no name
    from [meter_devices] and binds every name of the dataset metadata to
    the profile given there. *)
Theorem load_meter_devices_idempotent (store : DataStore) (w : World) :
  let w1 := snd (_load_meter_devices store w) in
  snd (_load_meter_devices store w1) = w1 /\
  dom (meter_devices w) ⊆ dom (meter_devices w1) /\
  (forall dataset_metadata new_profiles name d,
     load_metadata store "/" = Ok dataset_metadata ->
     md_meter_devices dataset_metadata = Some new_profiles ->
     new_profiles !! name = Some d ->
     meter_devices w1 !! name = Some d).
Proof.
  unfold _load_meter_devices, bind, lift, modify.
  destruct (load_metadata store "/") as [md|e]; simpl.
  - split; [|split].
    + unfold set_meter_devices. simpl.
      by rewrite (assoc_L (∪)), (idemp_L (∪)).
    + rewrite dom_union_L. set_solver.
    + intros ? new name d [= <-] Hnew Hd. rewrite Hnew. simpl.
      by apply lookup_union_Some_l.
  - split; [done|split; [done|]]. by intros.
Qed.
End Devices.

Section Loading.
Context `{KeyClass} `{HashableClass}.

Lemma result_cases {A} (r : result A) :
  (exists a, r = Ok a) \/ (exists e, r = Raise e).
Proof. destruct r; eauto. Qed.

Lemma set_heap_insert_insert (w : World) (self : loc) (a b : ElectricityMeter) :
  set_heap <[self := b]> (set_heap <[self := a]> w) = set_heap <[self := b]> w.
Proof. unfold set_heap. simpl. by rewrite insert_insert_eq. Qed.

Lemma heap_set_heap_insert (w : World) (self : loc) (a : ElectricityMeter) :
  heap (set_heap <[self := a]> w) !! self = Some a.
Proof. unfold set_heap. simpl. apply lookup_insert_eq. Qed.

(** The loop over [additional_channels] appends one derived key per
    channel, in order. *)
Lemma for_each_append_keys (self : loc) (derive : Z -> string) (chans : list Z) :
  forall (w : World) (m : ElectricityMeter),
    heap w !! self = Some m ->
    for_each chans
      (fun chan => update_obj self (fun m => set_keys (keys m ++ [derive chan]) m)) w
    = (Ok tt, set_heap <[self := set_keys (keys m ++ map derive chans) m]> w).
Proof.
  induction chans as [|chan chans IH]; intros w m Hm; simpl.
  - unfold ret. f_equal. rewrite app_nil_r.
    destruct w as [h ? ? ?], m as [? ? ? ?]. unfold set_heap, set_keys. simpl in *.
    by rewrite insert_id.
  - unfold bind. rewrite (update_obj_Some _ _ _ _ Hm).
    rewrite (IH _ _ (heap_set_heap_insert _ _ _)).
    rewrite set_heap_insert_insert. unfold set_keys. simpl.
    by rewrite <- app_assoc.
Qed.

(** The loop over [metadata['appliances']], when it runs to the end,
    has appended one appliance per entry, in order. *)
Lemma for_each_append_appliances (self : loc) (l : list ApplianceMetadata) :
  forall (w w' : World) (m : ElectricityMeter),
    heap w !! self = Some m ->
    for_each l
      (fun appliance_metadata =>
         let* a := lift (Appliance_init appliance_metadata) in
         update_obj self (fun m => set_appliances (appliances m ++ [a]) m)) w
    = (Ok tt, w') ->
    exists apps,
      Forall2 (fun amd a => Appliance_init amd = Ok a) l apps /\
      w' = set_heap <[self := set_appliances (appliances m ++ apps) m]> w.
Proof.
  induction l as [|amd l IH]; intros w w' m Hm; simpl.
  - intros [= <-]. exists []. split; [constructor|].
    rewrite app_nil_r.
    destruct w as [h ? ? ?], m as [? ? ? ?]. unfold set_heap, set_appliances.
    simpl in *. by rewrite insert_id.
  - unfold bind at 1. unfold bind at 1. unfold lift.
    destruct (Appliance_init amd) as [a|e] eqn:Ha; [|done].
    rewrite (update_obj_Some _ _ _ _ Hm).
    intros Hrest.
    destruct (IH _ _ _ (heap_set_heap_insert _ _ _) Hrest) as (apps & Happs & ->).
    exists (a :: apps). split; [by constructor|].
    rewrite set_heap_insert_insert. unfold set_appliances. simpl.
    by rewrite <- app_assoc.
Qed.

Lemma load_prefix (w : World) (self : loc) (m : ElectricityMeter)
    (store : DataStore) (key : string) (md : Metadata) (k : M unit) :
  heap w !! self = Some m ->
  load_metadata store key = Ok md ->
  (update_obj self (set_store store) ;;
   let* md := lift (load_metadata store key) in
   update_obj self (set_metadata md) ;;
   update_obj self (set_keys [key]) ;; k) w
  = k (after_parse w self m store key md).
Proof.
  intros Hm Hmd. unfold bind at 1.
  rewrite (update_obj_Some _ _ _ _ Hm).
  unfold bind at 1. unfold lift at 1. rewrite Hmd.
  unfold bind at 1.
  rewrite (update_obj_Some _ _ _ _ (heap_set_heap_insert _ _ _)).
  rewrite set_heap_insert_insert.
  unfold bind at 1.
  rewrite (update_obj_Some _ _ _ _ (heap_set_heap_insert _ _ _)).
  by rewrite set_heap_insert_insert.
Qed.

Lemma load_Ok_inv (w w' : World) (self : loc) (m : ElectricityMeter)
    (store : DataStore) (key : string) :
  heap w !! self = Some m ->
  load self store key w = (Ok tt, w') ->
  exists md key_obj n dataset_metadata device_model d apps,
    load_metadata store key = Ok md /\
    Key_init key = Ok key_obj /\
    meter key_obj = Some n /\
    load_metadata store "/" = Ok dataset_metadata /\
    md_device_model md = Some device_model /\
    (default ∅ (md_meter_devices dataset_metadata) ∪ meter_devices w)
      !! device_model = Some d /\
    Forall2 (fun amd a => Appliance_init amd = Ok a)
            (default [] (md_appliances md)) apps /\
    w' = {| heap :=
              <[self :=
                  {| store := Some store;
                     keys := key :: map (fun chan => Key_str (with_meter key_obj chan))
                                        (default [] (md_additional_channels md));
                     appliances := appliances m ++ apps;
                     metadata := set_md_device d md |}]> (heap w);
            meter_devices :=
              default ∅ (md_meter_devices dataset_metadata) ∪ meter_devices w;
            meters :=
              <[MkID (md_instance md) (md_building md) (md_dataset md) := self]>
                (meters w);
            created := created w |}.
Proof.
  intros Hm. unfold load.
  destruct (result_cases (load_metadata store key)) as [[md Hmd]|[e Hmd]].
  2:{ unfold bind at 1. rewrite (update_obj_Some _ _ _ _ Hm).
      unfold bind at 1. unfold lift. by rewrite Hmd. }
  rewrite (load_prefix _ _ _ _ _ _ _ Hm Hmd).
  unfold bind at 1. unfold lift at 1.
  destruct (Key_init key) as [key_obj|e] eqn:Hkey; [|done].
  destruct (meter key_obj) as [n|] eqn:Hmeter; [|done].
  set (w1 := after_parse w self m store key md).
  assert (Hw1 : heap w1 !! self = Some
            {| store := Some store; keys := [key];
               appliances := appliances m; metadata := md |})
    by apply heap_set_heap_insert.
  unfold bind at 1. unfold bind at 1.
  rewrite (get_obj_Some _ _ _ Hw1). cbv zeta. simpl metadata.
  rewrite (for_each_append_keys self
             (fun chan => Key_str (with_meter key_obj chan)) _ _ _ Hw1).
  subst w1. unfold after_parse. rewrite set_heap_insert_insert. simpl.
  unfold bind at 1. unfold _load_meter_devices at 1.
  unfold bind at 1. unfold lift at 1.
  destruct (load_metadata store "/") as [dataset_metadata|e] eqn:Hroot; [|done].
  unfold modify at 1.
  match goal with |- context [set_heap <[self := ?x]> w] => set (m2 := x) end.
  match goal with |- _ ?x = _ -> _ => set (w2 := x) end.
  assert (Hw2 : heap w2 !! self = Some m2) by apply lookup_insert_eq.
  unfold bind at 1. rewrite (get_obj_Some _ _ _ Hw2).
  unfold bind at 1. unfold get_device_model at 1.
  change (metadata m2) with md.
  destruct (md_device_model md) as [device_model|] eqn:Hmodel; [|done].
  unfold ret at 1. unfold bind at 1. unfold gets at 1.
  unfold bind at 1. unfold getitem at 1.
  destruct (meter_devices w2 !! device_model) as [d|] eqn:Hd; [|done].
  unfold ret at 1. unfold bind at 1.
  rewrite (update_obj_Some _ _ _ _ Hw2).
  match goal with |- context [set_heap <[self := ?x]> w2] => set (m3 := x) end.
  assert (Hw3 : heap (set_heap <[self := m3]> w2) !! self = Some m3)
    by apply heap_set_heap_insert.
  unfold bind at 1. unfold bind at 1.
  rewrite (get_obj_Some _ _ _ Hw3).
  match goal with |- context [for_each ?l ?body ?w] =>
    destruct (for_each l body w) as [[[]|e] w4] eqn:Hloop; [|done] end.
  destruct (for_each_append_appliances _ _ _ _ _ Hw3 Hloop) as (apps & Happs & ->).
  rewrite set_heap_insert_insert.
  unfold register, bind.
  rewrite (get_obj_Some _ _ _ (heap_set_heap_insert _ _ _)).
  unfold modify. intros [= <-].
  exists md, key_obj, n, dataset_metadata, device_model, d, apps.
  repeat split; try done.
  subst w2 m3 m2. unfold set_meters, set_heap, set_meter_devices. simpl.
  by rewrite insert_insert_eq.
Qed.

(** C10.  When the store returns metadata [md] for [key] and [key] parses
    to a key object whose [meter] is [None], [load] raises (the failed
    [assert]) in a world where the meter already has the new store,
    [md] as metadata and [[key]] as keys; the registry and the device
    table are as they were. *)
Theorem load_not_atomic (w : World) (self : loc) (m : ElectricityMeter)
    (store : DataStore) (key : string) (md : Metadata)
    (key_obj : Key KeyAddr) :
  heap w !! self = Some m ->
  load_metadata store key = Ok md ->
  Key_init key = Ok key_obj ->
  meter key_obj = None ->
  exists w',
    load self store key w = (Raise AssertionError, w') /\
    heap w' !! self = Some {| store := Some store; keys := [key];
                              appliances := appliances m; metadata := md |} /\
    meters w' = meters w /\
    meter_devices w' = meter_devices w.
Proof.
  intros Hm Hmd Hkey Hmeter.
  exists (after_parse w self m store key md). split; [|split; [|done]].
  - unfold load. rewrite (load_prefix _ _ _ _ _ _ _ Hm Hmd).
    unfold bind, lift. by rewrite Hkey, Hmeter.
  - apply heap_set_heap_insert.
Qed.

(** C5.  After a successful [load], [keys] is the primary key followed by
    one derived key per entry of [metadata['additional_channels']], in
    order; a derived key is the string of the parsed primary key with
    [meter] set to the channel and the other address fields kept. *)
Theorem load_keys (w w' : World) (self : loc) (m : ElectricityMeter)
    (store : DataStore) (key : string) :
  heap w !! self = Some m ->
  load self store key w = (Ok tt, w') ->
  exists md key_obj m',
    load_metadata store key = Ok md /\
    Key_init key = Ok key_obj /\
    heap w' !! self = Some m' /\
    keys m' =
    key :: map (fun chan => Key_str {| meter := Some chan; addr := addr key_obj |})
               (default [] (md_additional_channels md)).
Proof.
  intros Hm Hload.
  destruct (load_Ok_inv _ _ _ _ _ _ Hm Hload)
    as (md & key_obj & n & rmd & device_model & d & apps
        & Hmd & Hkey & _ & _ & _ & _ & _ & ->).
  eexists md, key_obj, _. repeat split; [done|done| |].
  - simpl. apply lookup_insert_eq.
  - done.
Qed.

(** C7.  The constructor registers the new meter under the triple
    (instance, building, dataset) of the metadata it was given, and a
    successful [load] registers the meter under the triple of the metadata
    the store returned for the key, which is then the meter's own
    identifier.  The registry after the load is the registry before with
    that one entry set to this meter: an entry already there, for whatever
    meter, is overwritten, and the registry has as many entries, under the
    same identifiers, as before. *)
Theorem registered_at_init_and_load :
  (forall (w : World) (md : option Metadata),
     exists self w' m,
       __init__ md w = (Ok self, w') /\
       heap w !! self = None /\
       heap w' !! self = Some m /\
       metadata m = default empty_metadata md /\
       let id := MkID (md_instance (default empty_metadata md))
                      (md_building (default empty_metadata md))
                      (md_dataset (default empty_metadata md)) in
       identifier m = id /\
       meters w' !! id = Some self /\
       meters w' = <[id := self]> (meters w)) /\
  (forall (w w' : World) (self : loc) (m : ElectricityMeter)
          (store : DataStore) (key : string),
     heap w !! self = Some m ->
     load self store key w = (Ok tt, w') ->
     exists md m',
       load_metadata store key = Ok md /\
       heap w' !! self = Some m' /\
       let id := MkID (md_instance md) (md_building md) (md_dataset md) in
       identifier m' = id /\
       meters w' !! id = Some self /\
       meters w' = <[id := self]> (meters w) /\
       (is_Some (meters w !! id) ->
        dom (meters w') = dom (meters w) /\
        size (meters w') = size (meters w))).
Proof.
  split.
  - intros w md. eexists _, _, _. split.
    + unfold __init__, bind, gets, modify, register, bind.
      rewrite (get_obj_Some _ _ _ (heap_set_heap_insert _ _ _)).
      unfold modify, ret. reflexivity.
    + simpl. split; [apply not_elem_of_dom, is_fresh|].
      split; [apply lookup_insert_eq|].
      split; [by destruct md|].
      assert (Hid : identifier
                {| store := None; keys := []; appliances := [];
                   metadata := match md with
                               | Some md0 => md0
                               | None => empty_metadata
                               end |} =
              MkID (md_instance (default empty_metadata md))
                   (md_building (default empty_metadata md))
                   (md_dataset (default empty_metadata md)))
        by (by destruct md).
      split; [exact Hid|]. rewrite Hid.
      split; [apply lookup_insert_eq|done].
  - intros w w' self m store key Hm Hload.
    destruct (load_Ok_inv _ _ _ _ _ _ Hm Hload)
      as (md & key_obj & n & rmd & device_model & d & apps
          & Hmd & Hkey & _ & _ & _ & _ & _ & ->).
    exists md. eexists. split; [exact Hmd|]. simpl.
    split; [apply lookup_insert_eq|].
    split; [done|]. split; [apply lookup_insert_eq|]. split; [done|].
    intros Hin. split; [by apply dom_insert_lookup_L|by apply map_size_insert_Some].
Qed.

(** C9.  After a successful [load] the meter's [metadata['device']] is the
    profile [meter_devices] held for its [device_model] at that moment.
    A later merge that binds the model name to another profile leaves
    the meter object, and so the cached profile, as it was, while the
    [device] property returns the newly bound profile. *)
Theorem device_snapshot (w w' : World) (self : loc) (m : ElectricityMeter)
    (store : DataStore) (key : string) :
  heap w !! self = Some m ->
  load self store key w = (Ok tt, w') ->
  exists m' device_model d,
    heap w' !! self = Some m' /\
    md_device_model (metadata m') = Some device_model /\
    meter_devices w' !! device_model = Some d /\
    md_device (metadata m') = Some d /\
    forall (store2 : DataStore) (dataset_metadata : Metadata)
           (new_profiles : gmap string DeviceProfile) (d2 : DeviceProfile),
      load_metadata store2 "/" = Ok dataset_metadata ->
      md_meter_devices dataset_metadata = Some new_profiles ->
      new_profiles !! device_model = Some d2 ->
      let w'' := snd (_load_meter_devices store2 w') in
      heap w'' !! self = Some m' /\
      device self w'' = (Ok d2, w'').
Proof.
  intros Hm Hload.
  destruct (load_Ok_inv _ _ _ _ _ _ Hm Hload)
    as (md & key_obj & n & rmd & device_model & d & apps
        & Hmd & Hkey & _ & _ & Hmodel & Hd & _ & ->).
  eexists _, device_model, d. simpl.
  split; [apply lookup_insert_eq|]. split; [done|]. split; [done|].
  split; [done|].
  intros store2 rmd2 new d2 Hroot2 Hnew Hd2.
  unfold _load_meter_devices, bind, lift. rewrite Hroot2.
  unfold modify. simpl. rewrite Hnew. simpl.
  split; [apply lookup_insert_eq|].
  erewrite device_resolves; [|simpl; apply lookup_insert_eq|done].
  simpl. by rewrite (lookup_union_Some_l _ _ _ _ Hd2).
Qed.

(** When the base class does supply [good_timeframes], the method divides
    the two energies, both computed over the timeframes that call
    returned; what [/] does with a zero divisor is up to [truediv]. *)
Lemma proportion_of_energy_inherited (w w1 w2 w3 : World) (self mains : loc)
    (timeframes e_self e_mains : Artifact) :
  "good_timeframes" ∈ Hashable_dict ->
  Hashable_call "good_timeframes" mains w = (Ok timeframes, w1) ->
  total_energy self {["timeframes" := timeframes]} w1 = (Ok e_self, w2) ->
  total_energy mains {["timeframes" := timeframes]} w2 = (Ok e_mains, w3) ->
  proportion_of_energy self mains w = (truediv e_self e_mains, w3).
Proof.
  intros Hbase Hgood Hself Hmains.
  unfold proportion_of_energy, bind at 1, call_inherited.
  rewrite (bool_decide_eq_true_2 _ Hbase), Hgood.
  unfold bind at 1. rewrite Hself.
  unfold bind at 1. by rewrite Hmains.
Qed.

(** C4.  [proportion_of_energy] starts with [mains.good_timeframes()].
    The class binds [good_sections] but no [good_timeframes]; unless the
    base class supplies that name, the call raises [AttributeError]
    before any energy is computed or divided. *)
Theorem proportion_of_energy_attribute_error (w : World) (self mains : loc) :
  ("good_timeframes" ∉ Hashable_dict) ->
  ("good_timeframes" ∉ instance_dict ++ class_dict) /\
  ("good_sections" ∈ class_dict) /\
  proportion_of_energy self mains w = (Raise (AttributeError "good_timeframes"), w).
Proof.
  intros Hbase. split; [|split].
  - apply (proj1 (bool_decide_eq_false _)). vm_compute. reflexivity.
  - apply (proj1 (bool_decide_eq_true _)). vm_compute. reflexivity.
  - unfold proportion_of_energy, bind, call_inherited.
    by rewrite (bool_decide_eq_false_2 _ Hbase).
Qed.
End Loading.

(** ** The methods on the small dataset *)

Section Scenarios.
Import Example.

Lemma upstream_meter_resolves_scenario :
  heap two_meters !! A = Some (MkMeter None [] [] sub_md) /\
  md_submeter_of sub_md = Some 1 /\
  meters two_meters !! MkID (Some 1) (Some 1) (Some "D") = Some B /\
  upstream_meter A two_meters = (Ok B, two_meters).
Proof.
  assert (Hm : heap two_meters !! A = Some (MkMeter None [] [] sub_md))
    by (vm_compute; reflexivity).
  assert (Hsub : md_submeter_of (metadata (MkMeter None [] [] sub_md)) = Some 1)
    by reflexivity.
  assert (Hup : meters two_meters !! MkID (Some 1) (Some 1) (Some "D") = Some B)
    by (vm_compute; reflexivity).
  split; [exact Hm|]. split; [reflexivity|]. split; [exact Hup|].
  apply (proj1 (upstream_meter_resolves two_meters A _ 1 Hm Hsub ltac:(lia)) B Hup).
Defined.

Lemma upstream_meter_value_errors_scenario :
  upstream_meter 1%positive lonely =
    (Raise (ValueError "This meter has no 'submeter_of' metadata attribute."), lonely) /\
  upstream_meter 1%positive grounded =
    (Raise (ValueError "'submeter_of' must be >= 1."), grounded).
Proof.
  assert (Hl : heap lonely !! 1%positive = Some (MkMeter None [] [] site_md))
    by (vm_compute; reflexivity).
  assert (Hg : heap grounded !! 1%positive = Some (MkMeter None [] [] zero_md))
    by (vm_compute; reflexivity).
  split.
  - apply (proj1 (upstream_meter_value_errors lonely 1%positive _ Hl)).
    reflexivity.
  - apply (proj2 (upstream_meter_value_errors grounded 1%positive _ Hg) 0).
    + reflexivity.
    + lia.
Defined.

(** C2 as stated fails: the two failures do not have distinct classes.
    Both the meter without [submeter_of] and the meter with
    [submeter_of = 0] raise a [ValueError]. *)
Lemma upstream_errors_share_class :
  ~ exists NoUpstreamError InvalidTopologyError : string,
      NoUpstreamError ≠ InvalidTopologyError /\
      (forall (w : World) self m,
         heap w !! self = Some m -> md_submeter_of (metadata m) = None ->
         exists e, fst (upstream_meter self w) = Raise e /\
                   exn_class e = NoUpstreamError) /\
      (forall (w : World) self m n,
         heap w !! self = Some m -> md_submeter_of (metadata m) = Some n ->
         n < 1 ->
         exists e, fst (upstream_meter self w) = Raise e /\
                   exn_class e = InvalidTopologyError).
Proof.
  intros (k1 & k2 & Hne & Hnone & Hlow).
  destruct (Hnone lonely 1%positive (MkMeter None [] [] site_md))
    as (e1 & He1 & Hk1); [by vm_compute|done|].
  destruct (Hlow grounded 1%positive (MkMeter None [] [] zero_md) 0)
    as (e2 & He2 & Hk2); [by vm_compute|done|lia|].
  vm_compute in He1, He2.
  injection He1 as <-. injection He2 as <-.
  apply Hne. by rewrite <- Hk1, <- Hk2.
Qed.



Lemma available_ac_types_scenario :
  meter_devices loaded !! "EnviR" = Some EnviR /\
  exists acs,
    available_ac_types A loaded = (Ok acs, loaded) /\
    map Power acs = [Power "apparent"; Power "active"].
Proof.
  assert (Hd : meter_devices loaded !! "EnviR" = Some EnviR)
    by (vm_compute; reflexivity).
  split; [exact Hd|].
  refine (available_ac_types_power_entries loaded A _ "EnviR" EnviR _ _ _ Hd eq_refl).
  - vm_compute. reflexivity.
  - reflexivity.
Defined.

Lemma load_meter_devices_scenario :
  meter_devices (snd (_load_meter_devices (hdf EnviR_v2) loaded)) !! "EnviR"
  = Some EnviR_v2.
Proof.
  apply (proj2 (proj2 (load_meter_devices_idempotent (hdf EnviR_v2) loaded))
           (root_md EnviR_v2) {[ "EnviR" := EnviR_v2 ]} "EnviR" EnviR_v2).
  - reflexivity.
  - reflexivity.
  - vm_compute. reflexivity.
Defined.

Lemma site_loaded_A :
  heap site_loaded !! A = Some (MkMeter None [] [] sub_md).
Proof. vm_compute. reflexivity. Qed.

Lemma load_A :
  load A (hdf EnviR) "/building1/elec/meter2" site_loaded = (Ok tt, loaded).
Proof. vm_compute. reflexivity. Qed.

(** The scenario of C5: [additional_channels = [3]] on the key of meter 2. *)
Lemma load_keys_scenario :
  md_additional_channels sub_md = Some [3] /\
  exists m',
    heap loaded !! A = Some m' /\
    keys m' = ["/building1/elec/meter2"; "/building1/elec/meter3"].
Proof.
  split; [reflexivity|].
  destruct (load_keys site_loaded loaded A _ (hdf EnviR) "/building1/elec/meter2"
              site_loaded_A load_A)
    as (md & key_obj & m' & Hmd & Hkey & Hm' & Hkeys).
  exists m'. split; [exact Hm'|].
  injection Hmd as <-. injection Hkey as <-.
  rewrite Hkeys. vm_compute. reflexivity.
Defined.

Lemma two_meters_B :
  heap two_meters !! B = Some (MkMeter None [] [] site_md).
Proof. vm_compute. reflexivity. Qed.

Lemma load_B :
  load B (hdf EnviR) "/building1/elec/meter1" two_meters = (Ok tt, site_loaded).
Proof. vm_compute. reflexivity. Qed.

Lemma three_meters_C :
  heap three_meters !! C = Some (MkMeter None [] [] empty_metadata).
Proof. vm_compute. reflexivity. Qed.

Lemma load_C :
  load C (hdf EnviR) "/building1/elec/meter2" three_meters = (Ok tt, reloaded).
Proof. vm_compute. reflexivity. Qed.

(** A meter built without metadata is registered under (None, None, None).
    Loading it from the key of meter 2 registers it under (2, 1, 'D'),
    where the sub-meter [A] was registered: the entry now points at the
    loaded meter, and the registry has as many entries as before. *)
Lemma registered_at_load_scenario :
  __init__ None two_meters = (Ok C, three_meters) /\
  meters three_meters !! MkID None None None = Some C /\
  meters three_meters !! MkID (Some 2) (Some 1) (Some "D") = Some A /\
  load C (hdf EnviR) "/building1/elec/meter2" three_meters = (Ok tt, reloaded) /\
  meters reloaded !! MkID (Some 2) (Some 1) (Some "D") = Some C /\
  meters reloaded = <[MkID (Some 2) (Some 1) (Some "D") := C]> (meters three_meters) /\
  size (meters reloaded) = size (meters three_meters).
Proof.
  assert (Hinit : __init__ None two_meters = (Ok C, three_meters))
    by (vm_compute; reflexivity).
  assert (Hold : meters three_meters !! MkID (Some 2) (Some 1) (Some "D") = Some A)
    by (vm_compute; reflexivity).
  split; [exact Hinit|]. split.
  { destruct (proj1 registered_at_init_and_load two_meters None)
      as (self & w' & m & Hrun & _ & _ & _ & _ & Hreg & _).
    rewrite Hinit in Hrun. injection Hrun as <- <-. exact Hreg. }
  split; [exact Hold|]. split; [exact load_C|].
  destruct (proj2 registered_at_init_and_load three_meters reloaded C _
              (hdf EnviR) "/building1/elec/meter2" three_meters_C load_C)
    as (md & m' & Hmd & _ & _ & Hreg & Hins & Hsame).
  injection Hmd as <-.
  split; [exact Hreg|]. split; [exact Hins|].
  apply Hsame. exists A. exact Hold.
Defined.

Lemma device_snapshot_scenario :
  let w'' := snd (_load_meter_devices (hdf EnviR_v2) loaded) in
  exists m',
    heap w'' !! A = Some m' /\
    md_device (metadata m') = Some EnviR /\
    device A w'' = (Ok EnviR_v2, w'').
Proof.
  destruct (device_snapshot site_loaded loaded A _ (hdf EnviR)
              "/building1/elec/meter2" site_loaded_A load_A)
    as (m' & device_model & d & Hm' & Hmodel & Hd & Hcached & Hlater).
  assert (Hm2 : heap loaded !! A =
                Some (MkMeter (Some (hdf EnviR))
                        ["/building1/elec/meter2"; "/building1/elec/meter3"]
                        ["fridge"] (set_md_device EnviR sub_md)))
    by (vm_compute; reflexivity).
  rewrite Hm2 in Hm'. injection Hm' as <-.
  injection Hmodel as <-.
  destruct (Hlater (hdf EnviR_v2) (root_md EnviR_v2) {[ "EnviR" := EnviR_v2 ]}
              EnviR_v2 eq_refl eq_refl) as [Hsame Hlive].
  { vm_compute. reflexivity. }
  eexists. split; [exact Hsame|]. split; [reflexivity|exact Hlive].
Defined.

Lemma load_not_atomic_scenario :
  exists w',
    load A (hdf EnviR) "/building1" two_meters = (Raise AssertionError, w') /\
    heap w' !! A = Some (MkMeter (Some (hdf EnviR)) ["/building1"] [] sub_md) /\
    meters w' = meters two_meters /\
    meter_devices w' = meter_devices two_meters.
Proof.
  refine (load_not_atomic two_meters A (MkMeter None [] [] sub_md) (hdf EnviR)
            "/building1" sub_md (MkKey None 1) _ eq_refl eq_refl eq_refl).
  vm_compute. reflexivity.
Defined.

Lemma proportion_of_energy_scenario :
  ("good_timeframes" ∉ Hashable_dict) /\
  proportion_of_energy A B loaded = (Raise (AttributeError "good_timeframes"), loaded).
Proof.
  assert (Hbase : "good_timeframes" ∉ Hashable_dict)
    by (apply (proj1 (bool_decide_eq_false _)); vm_compute; reflexivity).
  split; [exact Hbase|].
  apply (proportion_of_energy_attribute_error loaded A B Hbase).
Defined.
End Scenarios.

(** ** Matching *)

Section MatchingFacts.
Context `{MatchClass}.

Lemma matches_loop_found (before after : list Appliance) (a : Appliance)
    (key : MatchKey) :
  Forall (fun x => Appliance_matches x key = Ok false) before ->
  matches_loop (before ++ a :: after) key =
  match Appliance_matches a key with
  | Raise e => Raise e
  | Ok true => Ok true
  | Ok false => matches_loop after key
  end.
Proof.
  induction 1 as [|x before Hx _ IH]; simpl; [done|].
  by rewrite Hx.
Qed.

Lemma matches_loop_answers (l : list Appliance) (key : MatchKey) :
  Forall (fun a => exists b, Appliance_matches a key = Ok b) l ->
  exists b, matches_loop l key = Ok b /\
            (b = true <-> Exists (fun a => Appliance_matches a key = Ok true) l).
Proof.
  induction 1 as [|a l [b Ha] _ (b' & IH & Hiff)]; simpl.
  - exists false. split; [done|]. split; [done|]. by intros ?%Exists_nil.
  - rewrite Ha. destruct b.
    + exists true. split; [done|]. split; [|done]. intros _. by left.
    + exists b'. split; [done|]. rewrite Hiff, Exists_cons.
      split; [tauto|]. intros [Hbad|?]; [congruence|done].
Qed.

(** X1.  When every owned appliance answers the query, [matches] answers
    [True] exactly when one of them does, and leaves the world alone; a
    meter without appliances answers [False]. *)
Theorem matches_any (w : World) (self : loc) (m : ElectricityMeter)
    (key : MatchKey) :
  heap w !! self = Some m ->
  (forall a, a ∈ appliances m -> exists b, Appliance_matches a key = Ok b) ->
  exists b,
    matches self key w = (Ok b, w) /\
    (b = true <->
     exists a, a ∈ appliances m /\ Appliance_matches a key = Ok true).
Proof.
  intros Hm Hall.
  destruct (matches_loop_answers (appliances m) key) as (b & Hb & Hiff).
  { by apply Forall_forall. }
  exists b. split.
  - unfold matches, bind, lift. by rewrite (get_obj_Some _ _ _ Hm), Hb.
  - by rewrite Hiff, Exists_exists.
Qed.

(** X2.  [matches] stops at the first appliance that does not answer
    [False]: if that one answers [True] the result is [True] even when a
    later appliance would raise, and if it raises, [matches] raises the
    same exception. *)
Theorem matches_stops_at_first (w : World) (self : loc) (m : ElectricityMeter)
    (key : MatchKey) (before after : list Appliance) (a : Appliance) :
  heap w !! self = Some m ->
  appliances m = before ++ a :: after ->
  (forall x, x ∈ before -> Appliance_matches x key = Ok false) ->
  (Appliance_matches a key = Ok true -> matches self key w = (Ok true, w)) /\
  (forall e, Appliance_matches a key = Raise e ->
             matches self key w = (Raise e, w)).
Proof.
  intros Hm Happs Hbefore.
  assert (Hrun : matches self key w =
                 (match Appliance_matches a key with
                  | Raise e => Raise e
                  | Ok true => Ok true
                  | Ok false => matches_loop after key
                  end, w)).
  { unfold matches, bind, lift. rewrite (get_obj_Some _ _ _ Hm), Happs.
    rewrite matches_loop_found; [done|]. by apply Forall_forall. }
  split.
  - intros Ha. by rewrite Hrun, Ha.
  - intros e Ha. by rewrite Hrun, Ha.
Qed.
End MatchingFacts.

(** ** Every way [load] can end *)

Section LoadOutcomes.
Context `{KeyClass} `{HashableClass}.

Lemma for_each_appliances_built (self : loc) (l : list ApplianceMetadata)
    (apps : list Appliance) :
  Forall2 (fun amd a => Appliance_init amd = Ok a) l apps ->
  forall (w : World) (m : ElectricityMeter),
    heap w !! self = Some m ->
    for_each l
      (fun appliance_metadata =>
         let* a := lift (Appliance_init appliance_metadata) in
         update_obj self (fun m => set_appliances (appliances m ++ [a]) m)) w
    = (Ok tt, set_heap <[self := set_appliances (appliances m ++ apps) m]> w).
Proof.
  induction 1 as [|amd a l apps Ha _ IH]; intros w m Hm; simpl.
  - unfold ret. f_equal. rewrite app_nil_r.
    destruct w as [h ? ? ?], m as [? ? ? ?]. unfold set_heap, set_appliances.
    simpl in *. by rewrite insert_id.
  - unfold bind at 1. unfold bind at 1. unfold lift. rewrite Ha.
    rewrite (update_obj_Some _ _ _ _ Hm).
    rewrite (IH _ _ (heap_set_heap_insert _ _ _)).
    rewrite set_heap_insert_insert. unfold set_appliances. simpl.
    by rewrite <- app_assoc.
Qed.

Lemma for_each_appliances_broken (self : loc) (l post : list ApplianceMetadata)
    (apps : list Appliance) (bad : ApplianceMetadata) (e : exn) :
  Forall2 (fun amd a => Appliance_init amd = Ok a) l apps ->
  Appliance_init bad = Raise e ->
  forall (w : World) (m : ElectricityMeter),
    heap w !! self = Some m ->
    for_each (l ++ bad :: post)
      (fun appliance_metadata =>
         let* a := lift (Appliance_init appliance_metadata) in
         update_obj self (fun m => set_appliances (appliances m ++ [a]) m)) w
    = (Raise e, set_heap <[self := set_appliances (appliances m ++ apps) m]> w).
Proof.
  intros Hl Hbad.
  induction Hl as [|amd a l apps Ha _ IH]; intros w m Hm; simpl.
  - unfold bind at 1. unfold bind at 1. unfold lift. rewrite Hbad.
    f_equal. rewrite app_nil_r.
    destruct w as [h ? ? ?], m as [? ? ? ?]. unfold set_heap, set_appliances.
    simpl in *. by rewrite insert_id.
  - unfold bind at 1. unfold bind at 1. unfold lift. rewrite Ha.
    rewrite (update_obj_Some _ _ _ _ Hm).
    rewrite (IH _ _ (heap_set_heap_insert _ _ _)).
    rewrite set_heap_insert_insert. unfold set_appliances. simpl.
    by rewrite <- app_assoc.
Qed.

Lemma Forall2_init_functional (l : list ApplianceMetadata)
    (apps apps' : list Appliance) :
  Forall2 (fun amd a => Appliance_init amd = Ok a) l apps ->
  Forall2 (fun amd a => Appliance_init amd = Ok a) l apps' ->
  apps = apps'.
Proof.
  intros Hl. revert apps'.
  induction Hl as [|amd a l apps Ha _ IH]; intros apps' Hl'.
  - by inversion Hl'.
  - inversion Hl' as [|? a' ? apps'' Ha' Hrest]; subst.
    f_equal; [congruence|by apply IH].
Qed.

(** [load] up to the device merge, once the key has passed the check. *)
Lemma load_upto_merge (w : World) (self : loc) (m : ElectricityMeter)
    (store : DataStore) (key : string) (md : Metadata)
    (key_obj : Key KeyAddr) (n : Z) :
  heap w !! self = Some m ->
  load_metadata store key = Ok md ->
  Key_init key = Ok key_obj ->
  meter key_obj = Some n ->
  load self store key w =
  match load_metadata store "/" with
  | Raise e =>
    (Raise e, set_heap <[self := with_keys m store key md key_obj]> w)
  | Ok dataset_metadata =>
    load_tail self (at_merge w (with_keys m store key md key_obj) self
                             dataset_metadata)
  end.
Proof.
  intros Hm Hmd Hkey Hmeter. unfold load.
  rewrite (load_prefix _ _ _ _ _ _ _ Hm Hmd).
  unfold bind at 1. unfold lift at 1. rewrite Hkey, Hmeter.
  set (w1 := after_parse w self m store key md).
  assert (Hw1 : heap w1 !! self = Some
            {| store := Some store; keys := [key];
               appliances := appliances m; metadata := md |})
    by apply heap_set_heap_insert.
  unfold bind at 1. unfold bind at 1.
  rewrite (get_obj_Some _ _ _ Hw1). cbv zeta.
  change (metadata {| store := Some store; keys := [key];
                      appliances := appliances m; metadata := md |}) with md.
  rewrite (for_each_append_keys self
             (fun chan => Key_str (with_meter key_obj chan)) _ _ _ Hw1).
  subst w1. unfold after_parse. rewrite set_heap_insert_insert.
  unfold bind at 1. unfold _load_meter_devices at 1.
  unfold bind at 1. unfold lift at 1.
  destruct (load_metadata store "/") as [dataset_metadata|e]; [|done].
  done.
Qed.

(** [load_tail] once the device resolves: it ends in the appliance loop or
    with the registration. *)
Lemma load_tail_resolved (w2 : World) (self : loc) (m2 : ElectricityMeter)
    (device_model : string) (d : DeviceProfile) :
  heap w2 !! self = Some m2 ->
  md_device_model (metadata m2) = Some device_model ->
  meter_devices w2 !! device_model = Some d ->
  let m3 := set_metadata (set_md_device d (metadata m2)) m2 in
  (forall apps,
     Forall2 (fun amd a => Appliance_init amd = Ok a)
             (default [] (md_appliances (metadata m2))) apps ->
     load_tail self w2 =
     (Ok tt, set_meters <[identifier m3 := self]>
               (set_heap <[self := set_appliances (appliances m2 ++ apps) m3]> w2)))
  /\
  (forall pre bad post apps e,
     default [] (md_appliances (metadata m2)) = pre ++ bad :: post ->
     Forall2 (fun amd a => Appliance_init amd = Ok a) pre apps ->
     Appliance_init bad = Raise e ->
     load_tail self w2 =
     (Raise e, set_heap <[self := set_appliances (appliances m2 ++ apps) m3]> w2)).
Proof.
  intros Hm2 Hmodel Hd m3.
  assert (Hstart : load_tail self w2 =
    ((let* m := get_obj self in
      for_each (default [] (md_appliances (metadata m)))
        (fun appliance_metadata =>
           let* a := lift (Appliance_init appliance_metadata) in
           update_obj self
             (fun m => set_appliances (appliances m ++ [a]) m))) ;;
     register self) (set_heap <[self := m3]> w2)).
  { unfold load_tail. unfold bind at 1. rewrite (get_obj_Some _ _ _ Hm2).
    unfold bind at 1. unfold get_device_model at 1. rewrite Hmodel.
    unfold ret at 1. unfold bind at 1. unfold gets at 1.
    unfold bind at 1. unfold getitem at 1. rewrite Hd.
    unfold ret at 1. unfold bind at 1.
    by rewrite (update_obj_Some _ _ _ _ Hm2). }
  assert (Hw3 : heap (set_heap <[self := m3]> w2) !! self = Some m3)
    by apply heap_set_heap_insert.
  split.
  - intros apps Happs. rewrite Hstart.
    unfold bind at 1. unfold bind at 1. rewrite (get_obj_Some _ _ _ Hw3).
    change (metadata m3) with (set_md_device d (metadata m2)).
    change (md_appliances (set_md_device d (metadata m2)))
      with (md_appliances (metadata m2)).
    rewrite (for_each_appliances_built _ _ _ Happs _ _ Hw3).
    rewrite set_heap_insert_insert.
    unfold register, bind.
    rewrite (get_obj_Some _ _ _ (heap_set_heap_insert _ _ _)).
    done.
  - intros pre bad post apps e Hsplit Hpre Hbad. rewrite Hstart.
    unfold bind at 1. unfold bind at 1. rewrite (get_obj_Some _ _ _ Hw3).
    change (metadata m3) with (set_md_device d (metadata m2)).
    change (md_appliances (set_md_device d (metadata m2)))
      with (md_appliances (metadata m2)).
    rewrite Hsplit.
    rewrite (for_each_appliances_broken _ _ _ _ _ _ Hpre Hbad _ _ Hw3).
    by rewrite set_heap_insert_insert.
Qed.

Lemma load_tail_unresolved (w2 : World) (self : loc) (m2 : ElectricityMeter) :
  heap w2 !! self = Some m2 ->
  (md_device_model (metadata m2) = None ->
   load_tail self w2 = (Raise (KeyError "device_model"), w2)) /\
  (forall device_model,
     md_device_model (metadata m2) = Some device_model ->
     meter_devices w2 !! device_model = None ->
     load_tail self w2 = (Raise (KeyError device_model), w2)).
Proof.
  intros Hm2. split.
  - intros Hnone. unfold load_tail, bind.
    rewrite (get_obj_Some _ _ _ Hm2). unfold get_device_model.
    by rewrite Hnone.
  - intros device_model Hmodel Hd. unfold load_tail.
    unfold bind at 1. rewrite (get_obj_Some _ _ _ Hm2).
    unfold bind at 1. unfold get_device_model at 1. rewrite Hmodel.
    unfold ret at 1. unfold bind at 1. unfold gets at 1.
    unfold bind at 1. unfold getitem at 1. by rewrite Hd.
Qed.

(** X3.  The call [self.load(store, key)] succeeds exactly when [key] is
    a [str], the store has metadata for it, the key parses to a key with a
    meter, the store has dataset metadata under ['/'], the meter's
    [device_model] is bound once the dataset's profiles are merged in, and
    every appliance can be built; the world it leaves is then determined.
    (The metadata entries are of the types the class docstring gives:
    [additional_channels] and [appliances], where present, are lists.) *)
Theorem load_succeeds_iff (w w' : World) (self : loc) (m : ElectricityMeter)
    (store : DataStore) (key : KeyArg) :
  heap w !! self = Some m ->
  load_call self store key w = (Ok tt, w') <->
  exists s md key_obj n dataset_metadata device_model d apps,
    key = StrArg s /\
    load_metadata store s = Ok md /\
    Key_init s = Ok key_obj /\
    meter key_obj = Some n /\
    load_metadata store "/" = Ok dataset_metadata /\
    md_device_model md = Some device_model /\
    merged dataset_metadata w !! device_model = Some d /\
    Forall2 (fun amd a => Appliance_init amd = Ok a)
            (default [] (md_appliances md)) apps /\
    w' = {| heap :=
              <[self :=
                  {| store := Some store;
                     keys := s :: map (fun chan => Key_str (with_meter key_obj chan))
                                      (default [] (md_additional_channels md));
                     appliances := appliances m ++ apps;
                     metadata := set_md_device d md |}]> (heap w);
            meter_devices := merged dataset_metadata w;
            meters :=
              <[MkID (md_instance md) (md_building md) (md_dataset md) := self]>
                (meters w);
            created := created w |}.
Proof.
  intros Hm. split.
  - destruct key as [s|cls]; simpl; [|done].
    intros Hload.
    destruct (load_Ok_inv _ _ _ _ _ _ Hm Hload)
      as (md & key_obj & n & rmd & device_model & d & apps & Hall).
    by exists s, md, key_obj, n, rmd, device_model, d, apps.
  - intros (s & md & key_obj & n & rmd & device_model & d & apps
            & -> & Hmd & Hkey & Hmeter & Hroot & Hmodel & Hd & Happs & ->).
    simpl.
    rewrite (load_upto_merge _ _ _ _ _ _ _ _ Hm Hmd Hkey Hmeter), Hroot.
    assert (Hm2 : heap (at_merge w (with_keys m store s md key_obj) self rmd)
                  !! self = Some (with_keys m store s md key_obj))
      by apply lookup_insert_eq.
    rewrite (proj1 (load_tail_resolved _ _ _ _ _ Hm2 Hmodel Hd) apps Happs).
    unfold set_meters, set_heap, at_merge, identifier. simpl.
    by rewrite insert_insert_eq.
Qed.

(** X4.  Loading a meter a second time from the same store and key
    succeeds again and changes nothing but the meter's appliance list,
    which gets the appliances of the metadata appended once more. *)
Theorem load_again_appends_appliances (w w1 : World) (self : loc)
    (m : ElectricityMeter) (store : DataStore) (key : string) :
  heap w !! self = Some m ->
  load self store key w = (Ok tt, w1) ->
  exists m1 apps,
    heap w1 !! self = Some m1 /\
    appliances m1 = appliances m ++ apps /\
    load self store key w1 =
    (Ok tt, set_heap <[self := set_appliances (appliances m1 ++ apps) m1]> w1).
Proof.
  intros Hm Hload.
  destruct (load_Ok_inv _ _ _ _ _ _ Hm Hload)
    as (md & key_obj & n & rmd & device_model & d & apps
        & Hmd & Hkey & Hmeter & Hroot & Hmodel & Hd & Happs & ->).
  eexists _, apps. split; [apply lookup_insert_eq|]. split; [done|].
  match goal with |- load _ _ _ ?x = _ => set (w1 := x) end.
  assert (Hm1 : heap w1 !! self = Some
            {| store := Some store;
               keys := key :: map (fun chan => Key_str (with_meter key_obj chan))
                                  (default [] (md_additional_channels md));
               appliances := appliances m ++ apps;
               metadata := set_md_device d md |}) by apply lookup_insert_eq.
  rewrite (load_upto_merge _ _ _ _ _ _ _ _ Hm1 Hmd Hkey Hmeter), Hroot.
  match goal with |- load_tail _ ?x = _ => set (w2 := x) end.
  assert (Hm2 : heap w2 !! self =
                Some (with_keys {| store := Some store;
               keys := key :: map (fun chan => Key_str (with_meter key_obj chan))
                                  (default [] (md_additional_channels md));
               appliances := appliances m ++ apps;
               metadata := set_md_device d md |} store key md key_obj))
    by apply lookup_insert_eq.
  assert (Hsame : merged rmd w1 = merged rmd w).
  { unfold merged. simpl. by rewrite (assoc_L (∪)), (idemp_L (∪)). }
  assert (Hd2 : meter_devices w2 !! device_model = Some d).
  { subst w2. unfold at_merge. simpl. by rewrite Hsame. }
  rewrite (proj1 (load_tail_resolved _ _ _ _ _ Hm2 Hmodel Hd2) apps Happs).
  f_equal. subst w2 w1.
  unfold set_meters, set_heap, at_merge, identifier, set_appliances. simpl.
  rewrite !insert_insert_eq. by rewrite Hsame.
Qed.

(** X5.  [load] fails before the key check in two ways.  If the store has
    no metadata for the key, the store's exception comes out and only the
    meter's [store] attribute has changed; if the key does not parse, the
    parser's exception comes out and [store], [metadata] and [keys] have
    changed.  Neither touches the registry or the device table. *)
Theorem load_fails_early (w : World) (self : loc) (m : ElectricityMeter)
    (store : DataStore) (key : string) (e : exn) :
  heap w !! self = Some m ->
  (load_metadata store key = Raise e ->
   load self store key w = (Raise e, set_heap <[self := set_store store m]> w)) /\
  (forall md,
     load_metadata store key = Ok md ->
     Key_init key = Raise e ->
     load self store key w =
     (Raise e, set_heap <[self := {| store := Some store; keys := [key];
                                    appliances := appliances m;
                                    metadata := md |}]> w)).
Proof.
  intros Hm. split.
  - intros Hmd. unfold load. unfold bind at 1.
    rewrite (update_obj_Some _ _ _ _ Hm).
    unfold bind at 1. unfold lift. by rewrite Hmd.
  - intros md Hmd Hkey. unfold load.
    rewrite (load_prefix _ _ _ _ _ _ _ Hm Hmd).
    unfold bind, lift. by rewrite Hkey.
Qed.

(** X6.  Once the key has passed the check, [load] fails with the store's
    exception when the store has no dataset metadata, with
    [KeyError('device_model')] when the meter's metadata names no model,
    and with [KeyError(model)] when the merged device table does not bind
    the model.  In each case the meter already carries the derived keys
    and is not registered; in the last two the dataset's profiles have
    been merged into the device table. *)
Theorem load_fails_on_device (w : World) (self : loc) (m : ElectricityMeter)
    (store : DataStore) (key : string) (md : Metadata)
    (key_obj : Key KeyAddr) (n : Z) :
  heap w !! self = Some m ->
  load_metadata store key = Ok md ->
  Key_init key = Ok key_obj ->
  meter key_obj = Some n ->
  let m2 := with_keys m store key md key_obj in
  (forall e, load_metadata store "/" = Raise e ->
     load self store key w = (Raise e, set_heap <[self := m2]> w)) /\
  (forall dataset_metadata,
     load_metadata store "/" = Ok dataset_metadata ->
     md_device_model md = None ->
     load self store key w =
     (Raise (KeyError "device_model"), at_merge w m2 self dataset_metadata)) /\
  (forall dataset_metadata device_model,
     load_metadata store "/" = Ok dataset_metadata ->
     md_device_model md = Some device_model ->
     merged dataset_metadata w !! device_model = None ->
     load self store key w =
     (Raise (KeyError device_model), at_merge w m2 self dataset_metadata)).
Proof.
  intros Hm Hmd Hkey Hmeter m2.
  pose proof (load_upto_merge _ _ _ _ _ _ _ _ Hm Hmd Hkey Hmeter) as Hrun.
  split; [|split].
  - intros e Hroot. by rewrite Hrun, Hroot.
  - intros rmd Hroot Hmodel. rewrite Hrun, Hroot.
    apply (proj1 (load_tail_unresolved (at_merge w m2 self rmd) self m2
                    (lookup_insert_eq _ _ _))).
    exact Hmodel.
  - intros rmd device_model Hroot Hmodel Hd. rewrite Hrun, Hroot.
    apply (proj2 (load_tail_unresolved (at_merge w m2 self rmd) self m2
                    (lookup_insert_eq _ _ _))
             device_model Hmodel Hd).
Qed.

(** X7.  When building an appliance fails, [load] lets that exception
    out; the appliances built before it stay appended to the meter, whose
    metadata already caches the device, and the meter is not registered
    under its new identifier. *)
Theorem load_fails_in_appliances (w : World) (self : loc) (m : ElectricityMeter)
    (store : DataStore) (key : string) (md dataset_metadata : Metadata)
    (key_obj : Key KeyAddr) (n : Z) (device_model : string) (d : DeviceProfile)
    (pre post : list ApplianceMetadata) (bad : ApplianceMetadata)
    (apps : list Appliance) (e : exn) :
  heap w !! self = Some m ->
  load_metadata store key = Ok md ->
  Key_init key = Ok key_obj ->
  meter key_obj = Some n ->
  load_metadata store "/" = Ok dataset_metadata ->
  md_device_model md = Some device_model ->
  merged dataset_metadata w !! device_model = Some d ->
  default [] (md_appliances md) = pre ++ bad :: post ->
  Forall2 (fun amd a => Appliance_init amd = Ok a) pre apps ->
  Appliance_init bad = Raise e ->
  exists w',
    load self store key w = (Raise e, w') /\
    heap w' !! self =
      Some {| store := Some store;
              keys := key :: map (fun chan => Key_str (with_meter key_obj chan))
                                 (default [] (md_additional_channels md));
              appliances := appliances m ++ apps;
              metadata := set_md_device d md |} /\
    meters w' = meters w.
Proof.
  intros Hm Hmd Hkey Hmeter Hroot Hmodel Hd Hsplit Hpre Hbad.
  eexists. split.
  - rewrite (load_upto_merge _ _ _ _ _ _ _ _ Hm Hmd Hkey Hmeter), Hroot.
    assert (Hm2 : heap (at_merge w (with_keys m store key md key_obj) self
                                 dataset_metadata)
                  !! self = Some (with_keys m store key md key_obj))
      by apply lookup_insert_eq.
    apply (proj2 (load_tail_resolved _ _ _ _ _ Hm2 Hmodel Hd)
             pre bad post apps e Hsplit Hpre Hbad).
  - split; [apply lookup_insert_eq|done].
Qed.
End LoadOutcomes.

(** ** What [load] leaves alone *)

Section FrameFacts.
Context `{KeyClass} `{HashableClass}.

Lemma preserves_ret {A} (R : relation World) `{!Reflexive R} (a : A) :
  preserves R (ret a).
Proof. by intros w r w' [= <- <-]. Qed.

Lemma preserves_raise {A} (R : relation World) `{!Reflexive R} (e : exn) :
  preserves R (raise (A := A) e).
Proof. by intros w r w' [= <- <-]. Qed.

Lemma preserves_lift {A} (R : relation World) `{!Reflexive R} (x : result A) :
  preserves R (lift x).
Proof. by intros w r w' [= <- <-]. Qed.

Lemma preserves_gets {A} (R : relation World) `{!Reflexive R} (f : World -> A) :
  preserves R (gets f).
Proof. by intros w r w' [= <- <-]. Qed.

Lemma preserves_get_obj (R : relation World) `{!Reflexive R} (self : loc) :
  preserves R (get_obj self).
Proof.
  intros w r w'. unfold get_obj.
  by destruct (heap w !! self); intros [= <- <-].
Qed.

Lemma preserves_getitem {V} (R : relation World) `{!Reflexive R}
    (d : gmap string V) (k : string) :
  preserves R (getitem d k).
Proof.
  unfold getitem. destruct (d !! k); [by apply preserves_ret|by apply preserves_raise].
Qed.

Lemma preserves_get_device_model (R : relation World) `{!Reflexive R}
    (md : Metadata) :
  preserves R (get_device_model md).
Proof.
  unfold get_device_model.
  destruct (md_device_model md); [by apply preserves_ret|by apply preserves_raise].
Qed.

Lemma preserves_modify (R : relation World) (f : World -> World) :
  (forall w, R w (f w)) -> preserves R (modify f).
Proof. intros Hf w r w' [= <- <-]. apply Hf. Qed.

Lemma preserves_bind {A B} (R : relation World) `{!Transitive R}
    (c : M A) (k : A -> M B) :
  preserves R c -> (forall a, preserves R (k a)) -> preserves R (bind c k).
Proof.
  intros Hc Hk w r w'. unfold bind.
  destruct (c w) as [[a|e] w1] eqn:Hrun.
  - intros Hrest. etrans; [by eapply Hc|by eapply Hk].
  - intros [= <- <-]. by eapply Hc.
Qed.

Lemma preserves_for_each {A} (R : relation World) `{!PreOrder R}
    (l : list A) (body : A -> M unit) :
  (forall x, preserves R (body x)) -> preserves R (for_each l body).
Proof.
  intros Hbody. induction l as [|x l IH]; simpl.
  - apply preserves_ret; apply _.
  - apply preserves_bind; [apply _|apply Hbody|done].
Qed.

Lemma preserves_snd {A} (R : relation World) (c : M A) (w : World) :
  preserves R c -> R w (snd (c w)).
Proof. intros Hc. destruct (c w) as [r w'] eqn:Hrun. by eapply Hc. Qed.

#[local] Instance touches_only_preorder (self : loc) : PreOrder (touches_only self).
Proof.
  split.
  - intros w. unfold touches_only. repeat split; try done. by left.
  - intros w1 w2 w3 (Ho1 & Hd1 & Hc1 & Hv1 & Hr1 & Hm1) (Ho2 & Hd2 & Hc2 & Hv2 & Hr2 & Hm2).
    split; [|split; [|split; [|split; [|split]]]].
    + intros other Hne. by rewrite Ho2, Ho1.
    + by rewrite Hd2.
    + by rewrite Hc2.
    + by etrans.
    + intros id. destruct (Hr2 id) as [->| ->]; [apply Hr1|by right].
    + by etrans.
Qed.

Lemma touches_only_update (self : loc) (f : ElectricityMeter -> ElectricityMeter) :
  preserves (touches_only self) (update_obj self f).
Proof.
  apply preserves_modify. intros w. unfold touches_only, set_heap. simpl.
  split; [|split; [by rewrite dom_alter_L|repeat split; try done; by left]].
  intros other Hne. by rewrite lookup_alter_ne.
Qed.

Lemma touches_only_merge (self : loc) (store : DataStore) :
  preserves (touches_only self) (_load_meter_devices store).
Proof.
  unfold _load_meter_devices. apply preserves_bind; [apply _| |].
  - apply preserves_lift; apply _.
  - intros md. apply preserves_modify. intros w.
    unfold touches_only, set_meter_devices. simpl.
    repeat split; try done; [|by left].
    rewrite dom_union_L. apply union_subseteq_r.
Qed.

Lemma touches_only_register (self : loc) :
  preserves (touches_only self) (register self).
Proof.
  unfold register. apply preserves_bind; [apply _| |].
  - apply preserves_get_obj; apply _.
  - intros m. apply preserves_modify. intros w.
    unfold touches_only, set_meters. simpl.
    repeat split; try done.
    + intros id. destruct (decide (id = identifier m)) as [->|Hne].
      * right. apply lookup_insert_eq.
      * left. by rewrite lookup_insert_ne.
    + rewrite dom_insert_L. apply union_subseteq_r.
Qed.

Lemma load_preserves_frame (self : loc) (store : DataStore) (key : string) :
  preserves (touches_only self) (load self store key).
Proof.
  unfold load.
  repeat first
    [ apply touches_only_update
    | apply touches_only_merge
    | apply touches_only_register
    | apply preserves_lift; apply _
    | apply preserves_get_obj; apply _
    | apply preserves_gets; apply _
    | apply preserves_getitem; apply _
    | apply preserves_get_device_model; apply _
    | apply preserves_raise; apply _
    | apply preserves_for_each; [apply _|intros ?]
    | apply preserves_bind; [apply _| |intros ?]
    | match goal with |- preserves _ (match meter ?k with _ => _ end) =>
        destruct (meter k) end ].
Qed.

(** X8.  However [load] ends, it has touched only its own meter: the other
    meter objects are as before, no object was allocated or freed, no
    collaborator object was created, no device profile name and no
    registry identifier was removed, and every registry entry either is
    as before or points at this meter. *)
Theorem load_touches_only_self (w : World) (self : loc) (store : DataStore)
    (key : string) :
  touches_only self w (snd (load self store key w)).
Proof. apply preserves_snd, load_preserves_frame. Qed.

#[local] Instance keeps_store_preorder (self : loc) (st : DataStore) :
  PreOrder (keeps_store self st).
Proof.
  split.
  - intros w Hw. exact Hw.
  - intros w1 w2 w3 H12 H23 Hw1. by apply H23, H12.
Qed.

Lemma keeps_store_update (self : loc) (st : DataStore)
    (f : ElectricityMeter -> ElectricityMeter) :
  (forall m, store (f m) = store m) ->
  preserves (keeps_store self st) (update_obj self f).
Proof.
  intros Hf. apply preserves_modify. intros w (m & Hm & Hst).
  exists (f m). split.
  - unfold set_heap. simpl. by rewrite lookup_alter_eq, Hm.
  - by rewrite Hf.
Qed.

Lemma keeps_store_same_heap (self : loc) (st : DataStore) (f : World -> World) :
  (forall w, heap (f w) = heap w) ->
  preserves (keeps_store self st) (modify f).
Proof.
  intros Hf. apply preserves_modify. intros w (m & Hm & Hst).
  exists m. by rewrite Hf.
Qed.

(** X9.  A [key] that is not a [str] stops [load] at its first statement:
    [AssertionError], nothing changed, no store attached.  For a [str]
    key, however [load] ends from there on, the meter has the new store
    attached, so the store guard of [_run_pipeline] lets a later analysis
    call through to the pipeline even after a failed [load] (the keyword
    names not colliding with the [meter] argument of the run). *)
Theorem load_attaches_store_past_check (w : World) (self : loc)
    (m : ElectricityMeter) (st : DataStore) :
  heap w !! self = Some m ->
  (forall cls, load_call self st (OtherArg cls) w = (Raise AssertionError, w)) /\
  (forall key,
     let w' := snd (load_call self st (StrArg key) w) in
     store_attached self st w' /\
     forall nodes (load_kwargs : gmap string Artifact),
       "meter" ∉ dom load_kwargs ->
       _run_pipeline self nodes load_kwargs w' =
       Pipeline_run nodes self load_kwargs
         (set_created (fun log => log ++ [NewPipeline nodes]) w')).
Proof.
  intros Hm. split; [done|]. intros key w'.
  assert (Hatt : store_attached self st w').
  { subst w'. simpl. unfold load. unfold bind at 1.
    rewrite (update_obj_Some _ _ _ _ Hm).
    match goal with |- store_attached _ _ (snd (?c ?w1)) =>
      apply (preserves_snd (keeps_store self st) c w1) end.
    - repeat first
        [ apply keeps_store_update; by intros []
        | apply keeps_store_same_heap; by intros []
        | apply preserves_lift; apply _
        | apply preserves_get_obj; apply _
        | apply preserves_gets; apply _
        | apply preserves_getitem; apply _
        | apply preserves_get_device_model; apply _
        | apply preserves_raise; apply _
        | apply preserves_for_each; [apply _|intros ?]
        | apply preserves_bind; [apply _| |intros ?]
        | match goal with |- preserves _ (match meter ?k with _ => _ end) =>
            destruct (meter k) end
        | progress unfold _load_meter_devices, register ].
    - exists (set_store st m). split; [apply heap_set_heap_insert|done]. }
  split; [exact Hatt|].
  destruct Hatt as (m' & Hm' & Hst). intros nodes load_kwargs _.
  unfold _run_pipeline. unfold bind at 1.
  rewrite (get_obj_Some _ _ _ Hm'), Hst. done.
Qed.
End FrameFacts.

(** ** Queries, topology and the device table *)

Section MoreFacts.
Context `{KeyClass} `{HashableClass}.

Lemma upstream_meter_run (w : World) (self : loc) (m : ElectricityMeter)
    (k : Z) :
  heap w !! self = Some m ->
  md_submeter_of (metadata m) = Some k ->
  1 <= k ->
  upstream_meter self w =
  let id_of_upstream :=
    MkID (Some k)
         (match md_upstream_meter_in_building (metadata m) with
          | Some b => Some b
          | None => md_building (metadata m)
          end)
         (md_dataset (metadata m)) in
  match meters w !! id_of_upstream with
  | Some up => (Ok up, w)
  | None => (Raise (KeyError_id id_of_upstream), w)
  end.
Proof.
  intros Hm Hsub Hge. unfold upstream_meter, bind.
  rewrite (get_obj_Some _ _ _ Hm), Hsub.
  destruct (Z.leb_spec k 0) as [Hle|_]; [lia|].
  unfold gets, identifier. simpl.
  match goal with |- context [meters w !! ?i] => by destruct (meters w !! i) end.
Qed.

Lemma init_run (w : World) (md : option Metadata) :
  let self := fresh (dom (heap w)) in
  let m0 := MkMeter None [] [] (default empty_metadata md) in
  __init__ md w =
  (Ok self, {| heap := <[self := m0]> (heap w);
               meter_devices := meter_devices w;
               meters := <[identifier m0 := self]> (meters w);
               created := created w |}).
Proof.
  intros self m0. unfold __init__, bind, gets, modify, register, bind.
  rewrite (get_obj_Some _ _ _ (heap_set_heap_insert _ _ _)).
  unfold modify, ret, set_meters, set_heap. simpl.
  by destruct md.
Qed.

(** X10.  The three read-only members never change the world, whether
    they return or raise: [upstream_meter], [device] and
    [available_ac_types]. *)
Theorem queries_leave_world (w : World) (self : loc) :
  snd (upstream_meter self w) = w /\
  snd (device self w) = w /\
  snd (available_ac_types self w) = w.
Proof.
  assert (Hdev : preserves eq (device self)).
  { unfold device.
    repeat first
      [ apply preserves_get_obj; apply _
      | apply preserves_gets; apply _
      | apply preserves_getitem; apply _
      | apply preserves_get_device_model; apply _
      | apply preserves_bind; [apply _| |intros ?] ]. }
  split; [|split]; symmetry; apply (preserves_snd eq).
  - unfold upstream_meter.
    apply preserves_bind; [apply _|apply preserves_get_obj; apply _|intros m].
    destruct (md_submeter_of (metadata m)) as [k|];
      [|apply preserves_raise; apply _].
    destruct (k <=? 0); [apply preserves_raise; apply _|].
    cbv zeta.
    apply preserves_bind; [apply _|apply preserves_gets; apply _|intros reg].
    match goal with |- context [reg !! ?i] => destruct (reg !! i) end;
      [apply preserves_ret; apply _|apply preserves_raise; apply _].
  - exact Hdev.
  - unfold available_ac_types.
    apply preserves_bind; [apply _|exact Hdev|intros d].
    destruct (measurements d);
      [apply preserves_ret; apply _|apply preserves_raise; apply _].
Qed.

(** X11.  The topology is not checked for cycles: a registered meter whose
    [submeter_of] is its own instance, with no
    [upstream_meter_in_building], is its own upstream meter. *)
Theorem upstream_meter_of_itself (w : World) (self : loc)
    (m : ElectricityMeter) (k : Z) :
  heap w !! self = Some m ->
  md_instance (metadata m) = Some k ->
  md_submeter_of (metadata m) = Some k ->
  md_upstream_meter_in_building (metadata m) = None ->
  1 <= k ->
  meters w !! identifier m = Some self ->
  upstream_meter self w = (Ok self, w).
Proof.
  intros Hm Hinst Hsub Hnob Hge Hreg.
  rewrite (upstream_meter_run _ _ _ _ Hm Hsub Hge). cbv zeta.
  rewrite Hnob. unfold identifier in Hreg. rewrite Hinst in Hreg.
  by rewrite Hreg.
Qed.

(** X12.  Once a meter has been loaded, every sub-meter that names its
    instance, building and dataset resolves to it, whichever meter was
    registered under that identifier before. *)
Theorem loaded_meter_is_upstream (w w' : World) (self sub : loc)
    (m msub : ElectricityMeter) (store : DataStore) (key : string)
    (md : Metadata) (k : Z) :
  heap w !! self = Some m ->
  load self store key w = (Ok tt, w') ->
  load_metadata store key = Ok md ->
  heap w' !! sub = Some msub ->
  md_submeter_of (metadata msub) = Some k ->
  1 <= k ->
  md_instance md = Some k ->
  match md_upstream_meter_in_building (metadata msub) with
  | Some b => Some b
  | None => md_building (metadata msub)
  end = md_building md ->
  md_dataset (metadata msub) = md_dataset md ->
  upstream_meter sub w' = (Ok self, w').
Proof.
  intros Hm Hload Hmd Hsubm Hsub Hge Hinst Hb Hds.
  destruct (load_Ok_inv _ _ _ _ _ _ Hm Hload)
    as (md' & key_obj & n & rmd & device_model & d & apps
        & Hmd' & _ & _ & _ & _ & _ & _ & Hw').
  assert (md' = md) as -> by congruence.
  rewrite (upstream_meter_run _ _ _ _ Hsubm Hsub Hge). cbv zeta.
  rewrite Hb, Hds, <- Hinst. rewrite Hw' at 1. simpl.
  by rewrite lookup_insert_eq.
Qed.

(** X13.  Constructing two meters whose metadata give the same identifier
    yields two distinct objects; the registry entry ends up pointing at
    the second, and the first stays allocated, unchanged. *)
Theorem second_construction_wins (w : World) (md1 md2 : option Metadata) :
  identifier (MkMeter None [] [] (default empty_metadata md1)) =
  identifier (MkMeter None [] [] (default empty_metadata md2)) ->
  exists a b w1 w2,
    __init__ md1 w = (Ok a, w1) /\
    __init__ md2 w1 = (Ok b, w2) /\
    a ≠ b /\
    heap w2 !! a = Some (MkMeter None [] [] (default empty_metadata md1)) /\
    heap w2 !! b = Some (MkMeter None [] [] (default empty_metadata md2)) /\
    meters w2 !! identifier (MkMeter None [] [] (default empty_metadata md1))
    = Some b.
Proof.
  intros Hid.
  pose proof (init_run w md1) as Hrun1. cbv zeta in Hrun1.
  set (a := fresh (dom (heap w))) in *.
  match type of Hrun1 with _ = (_, ?x) => set (w1 := x) in * end.
  pose proof (init_run w1 md2) as Hrun2. cbv zeta in Hrun2.
  set (b := fresh (dom (heap w1))) in *.
  assert (Hab : a ≠ b).
  { intros Heq. apply (is_fresh (dom (heap w1))). fold b. rewrite <- Heq.
    subst w1. simpl. rewrite dom_insert_L. set_solver. }
  eexists a, b, w1, _. split; [exact Hrun1|]. split; [exact Hrun2|].
  split; [exact Hab|]. simpl.
  split; [by rewrite lookup_insert_ne, lookup_insert_eq|].
  split; [apply lookup_insert_eq|].
  rewrite Hid. apply lookup_insert_eq.
Qed.

(** X14.  [available_ac_types] reads the device table, not the profile
    cached in [metadata['device']]: once a later merge binds the model of a
    loaded meter to another profile, the method reports the [Power]
    entries of that profile while the cache still holds the old one. *)
Theorem available_ac_types_follows_table (w w' : World) (self : loc)
    (m : ElectricityMeter) (store store2 : DataStore) (key : string)
    (md dataset_metadata : Metadata) (device_model : string)
    (new_profiles : gmap string DeviceProfile) (d2 : DeviceProfile)
    (ms2 : list Measurement) :
  heap w !! self = Some m ->
  load self store key w = (Ok tt, w') ->
  load_metadata store key = Ok md ->
  md_device_model md = Some device_model ->
  load_metadata store2 "/" = Ok dataset_metadata ->
  md_meter_devices dataset_metadata = Some new_profiles ->
  new_profiles !! device_model = Some d2 ->
  measurements d2 = Some ms2 ->
  let w'' := snd (_load_meter_devices store2 w') in
  exists acs m',
    available_ac_types self w'' = (Ok acs, w'') /\
    map Power acs = List.filter isinstance_Power ms2 /\
    heap w'' !! self = Some m' /\
    md_device (metadata m') = meter_devices w' !! device_model.
Proof.
  intros Hm Hload Hmd Hmodel Hroot2 Hnew Hd2 Hms2.
  destruct (load_Ok_inv _ _ _ _ _ _ Hm Hload)
    as (md' & key_obj & n & rmd & device_model' & d & apps
        & Hmd' & _ & _ & _ & Hmodel' & Hd & _ & ->).
  assert (md' = md) as -> by congruence.
  assert (device_model' = device_model) as -> by congruence.
  unfold _load_meter_devices, bind, lift. rewrite Hroot2.
  unfold modify. simpl. rewrite Hnew. simpl.
  eexists (ac_types_of ms2), _. split; [|split; [|split]].
  - unfold available_ac_types, bind.
    erewrite device_resolves; [|simpl; apply lookup_insert_eq|done].
    simpl. rewrite (lookup_union_Some_l _ _ _ _ Hd2). by rewrite Hms2.
  - apply ac_types_of_filter.
  - apply lookup_insert_eq.
  - simpl. by rewrite Hd.
Qed.

(** X15.  [available_ac_types] (and [device], which it calls) raises
    [KeyError('device_model')] when the metadata names no model,
    [KeyError(model)] when the device table does not bind the model, and
    [KeyError('measurements')] when the profile lists no measurements. *)
Theorem available_ac_types_errors (w : World) (self : loc)
    (m : ElectricityMeter) :
  heap w !! self = Some m ->
  (md_device_model (metadata m) = None ->
   device self w = (Raise (KeyError "device_model"), w) /\
   available_ac_types self w = (Raise (KeyError "device_model"), w)) /\
  (forall device_model,
     md_device_model (metadata m) = Some device_model ->
     meter_devices w !! device_model = None ->
     device self w = (Raise (KeyError device_model), w) /\
     available_ac_types self w = (Raise (KeyError device_model), w)) /\
  (forall device_model d,
     md_device_model (metadata m) = Some device_model ->
     meter_devices w !! device_model = Some d ->
     measurements d = None ->
     available_ac_types self w = (Raise (KeyError "measurements"), w)).
Proof.
  intros Hm. split; [|split].
  - intros Hnone.
    assert (Hdev : device self w = (Raise (KeyError "device_model"), w)).
    { unfold device, bind. rewrite (get_obj_Some _ _ _ Hm).
      unfold get_device_model. by rewrite Hnone. }
    split; [exact Hdev|]. unfold available_ac_types, bind. by rewrite Hdev.
  - intros device_model Hmodel Hd.
    assert (Hdev : device self w = (Raise (KeyError device_model), w)).
    { by rewrite (device_resolves _ _ _ _ Hm Hmodel), Hd. }
    split; [exact Hdev|]. unfold available_ac_types, bind. by rewrite Hdev.
  - intros device_model d Hmodel Hd Hms.
    unfold available_ac_types, bind.
    rewrite (device_resolves _ _ _ _ Hm Hmodel), Hd. by rewrite Hms.
Qed.

Lemma elem_of_ac_types_of (ms : list Measurement) (t : string) :
  t ∈ ac_types_of ms <-> Power t ∈ ms.
Proof.
  induction ms as [|[ac_type| |cls] rest IH]; simpl.
  - by rewrite !elem_of_nil.
  - rewrite !elem_of_cons, IH. split; intros [?|?]; auto; left; congruence.
  - rewrite elem_of_cons, IH. split; [auto|]. by intros [?|?].
  - rewrite elem_of_cons, IH. split; [auto|]. by intros [?|?].
Qed.

Lemma length_ac_types_of (ms : list Measurement) :
  (length (ac_types_of ms) <= length ms)%nat.
Proof.
  induction ms as [|[ac_type| |cls] rest IH]; simpl; lia.
Qed.

(** X16.  A tag is among the available AC types exactly when the device
    profile lists a [Power] measurement with that tag, and there are never
    more tags than measurements. *)
Theorem available_ac_types_membership (w : World) (self : loc)
    (m : ElectricityMeter) (device_model : string) (d : DeviceProfile)
    (ms : list Measurement) :
  heap w !! self = Some m ->
  md_device_model (metadata m) = Some device_model ->
  meter_devices w !! device_model = Some d ->
  measurements d = Some ms ->
  exists acs,
    available_ac_types self w = (Ok acs, w) /\
    (forall t, t ∈ acs <-> Power t ∈ ms) /\
    (length acs <= length ms)%nat.
Proof.
  intros Hm Hmodel Hd Hms. exists (ac_types_of ms). split; [|split].
  - unfold available_ac_types, bind.
    rewrite (device_resolves _ _ _ _ Hm Hmodel), Hd. by rewrite Hms.
  - apply elem_of_ac_types_of.
  - apply length_ac_types_of.
Qed.

Lemma load_meter_devices_run (store : DataStore) (w : World) :
  _load_meter_devices store w =
  match load_metadata store "/" with
  | Ok dataset_metadata =>
    (Ok tt, set_meter_devices (fun _ => merged dataset_metadata w) w)
  | Raise e => (Raise e, w)
  end.
Proof.
  unfold _load_meter_devices, bind, lift.
  by destruct (load_metadata store "/").
Qed.

(** X17.  [_load_meter_devices] changes nothing when the store raises on
    ['/'] (the exception comes out) and when the dataset metadata has no
    ['meter_devices'] entry or an empty one (the call returns). *)
Theorem load_meter_devices_noop (store : DataStore) (w : World) :
  (forall e, load_metadata store "/" = Raise e ->
             _load_meter_devices store w = (Raise e, w)) /\
  (forall dataset_metadata,
     load_metadata store "/" = Ok dataset_metadata ->
     default ∅ (md_meter_devices dataset_metadata) = ∅ ->
     _load_meter_devices store w = (Ok tt, w)).
Proof.
  split.
  - intros e Hroot. by rewrite load_meter_devices_run, Hroot.
  - intros md Hroot Hnone. rewrite load_meter_devices_run, Hroot.
    unfold merged. rewrite Hnone, (left_id_L ∅ (∪)).
    by destruct w.
Qed.

(** X18.  After the profiles of two stores are merged one after the
    other, a model name is bound to the profile of the second store if it
    has one, else to that of the first store if it has one, else as
    before; when the two stores share no model name the order of the two
    merges does not matter. *)
Theorem load_meter_devices_twice (store1 store2 : DataStore) (w : World)
    (md1 md2 : Metadata) (new1 new2 : gmap string DeviceProfile) :
  load_metadata store1 "/" = Ok md1 ->
  load_metadata store2 "/" = Ok md2 ->
  md_meter_devices md1 = Some new1 ->
  md_meter_devices md2 = Some new2 ->
  let w12 := snd (_load_meter_devices store2 (snd (_load_meter_devices store1 w))) in
  let w21 := snd (_load_meter_devices store1 (snd (_load_meter_devices store2 w))) in
  (forall name,
     meter_devices w12 !! name =
     match new2 !! name with
     | Some d => Some d
     | None => match new1 !! name with
               | Some d => Some d
               | None => meter_devices w !! name
               end
     end) /\
  (dom new1 ## dom new2 -> w12 = w21).
Proof.
  intros Hroot1 Hroot2 Hnew1 Hnew2 w12 w21.
  assert (H12 : w12 = set_meter_devices (fun old => new2 ∪ (new1 ∪ old)) w).
  { subst w12. rewrite !load_meter_devices_run, Hroot1. simpl.
    rewrite Hroot2. unfold merged, set_meter_devices. simpl.
    by rewrite Hnew1, Hnew2. }
  assert (H21 : w21 = set_meter_devices (fun old => new1 ∪ (new2 ∪ old)) w).
  { subst w21. rewrite !load_meter_devices_run, Hroot2. simpl.
    rewrite Hroot1. unfold merged, set_meter_devices. simpl.
    by rewrite Hnew1, Hnew2. }
  split.
  - intros name. rewrite H12. simpl.
    destruct (new2 !! name) as [d|] eqn:H2n.
    + by apply lookup_union_Some_l.
    + rewrite lookup_union_r by done.
      destruct (new1 !! name) as [d|] eqn:H1n.
      * by apply lookup_union_Some_l.
      * by rewrite lookup_union_r.
  - intros Hdisj. rewrite H12, H21. unfold set_meter_devices. f_equal.
    rewrite !(assoc_L (∪)). f_equal.
    apply map_union_comm. by apply map_disjoint_dom.
Qed.
End MoreFacts.

Section PipelineFacts.
Context `{PipelineClass}.

Lemma run_pipeline_set (w : World) (self : loc) (m : ElectricityMeter)
    (st : DataStore) (nodes : list Node) (load_kwargs : gmap string Artifact) :
  heap w !! self = Some m -> store m = Some st ->
  _run_pipeline self nodes load_kwargs w =
  Pipeline_run nodes self load_kwargs
    (set_created (fun log => log ++ [NewPipeline nodes]) w).
Proof.
  intros Hm Hst. unfold _run_pipeline. unfold bind at 1.
  by rewrite (get_obj_Some _ _ _ Hm), Hst.
Qed.

(** X19.  With a store attached and keyword arguments that name neither
    [nodes] nor [meter] (Python rejects a call that passes one of them
    twice), [total_energy] builds a [ClipNode] and an [EnergyNode], one
    [Pipeline] over the two in that order, and runs it on the meter with
    the caller's keyword arguments.  It returns the ['energy'] entry of
    the results, raises [KeyError('energy')] when the results have none,
    and lets an exception of the run through. *)
Theorem total_energy_runs_pipeline (w : World) (self : loc)
    (m : ElectricityMeter) (st : DataStore)
    (load_kwargs : gmap string Artifact) :
  heap w !! self = Some m -> store m = Some st ->
  "nodes" ∉ dom load_kwargs -> "meter" ∉ dom load_kwargs ->
  let w1 := set_created
              (fun log => log ++ [NewNode ClipNode; NewNode EnergyNode;
                                  NewPipeline [ClipNode; EnergyNode]]) w in
  (forall results w2,
     Pipeline_run [ClipNode; EnergyNode] self load_kwargs w1 = (Ok results, w2) ->
     total_energy self load_kwargs w =
     (match results !! "energy" with
      | Some energy => Ok energy
      | None => Raise (KeyError "energy")
      end, w2)) /\
  (forall e w2,
     Pipeline_run [ClipNode; EnergyNode] self load_kwargs w1 = (Raise e, w2) ->
     total_energy self load_kwargs w = (Raise e, w2)).
Proof.
  intros Hm Hst _ _ w1.
  assert (Hrun : forall k : gmap string Artifact -> M Artifact,
            (create (NewNode ClipNode) ;; create (NewNode EnergyNode) ;;
             let* results := _run_pipeline self [ClipNode; EnergyNode] load_kwargs
             in k results) w =
            match Pipeline_run [ClipNode; EnergyNode] self load_kwargs w1 with
            | (Ok results, w2) => k results w2
            | (Raise e, w2) => (Raise e, w2)
            end).
  { intros k. unfold bind at 1. unfold create at 1, modify at 1.
    unfold bind at 1. unfold create at 1, modify at 1.
    rewrite created_app. unfold bind at 1.
    rewrite (run_pipeline_set _ self m st); [|done|done].
    unfold set_created. simpl. rewrite <- app_assoc. done. }
  split.
  - intros results w2 Hpipe. unfold total_energy. rewrite Hrun, Hpipe.
    unfold getitem. by destruct (results !! "energy").
  - intros e w2 Hpipe. unfold total_energy. by rewrite Hrun, Hpipe.
Qed.

(** X20.  With a store attached, [good_sections] builds one
    [LocateGoodSectionsNode] and one [Pipeline] over it, runs it on the
    meter without keyword arguments, and returns the ['good_sections']
    entry of the results or raises [KeyError('good_sections')]. *)
Theorem good_sections_runs_pipeline (w : World) (self : loc)
    (m : ElectricityMeter) (st : DataStore) :
  heap w !! self = Some m -> store m = Some st ->
  let w1 := set_created
              (fun log => log ++ [NewNode LocateGoodSectionsNode;
                                  NewPipeline [LocateGoodSectionsNode]]) w in
  (forall results w2,
     Pipeline_run [LocateGoodSectionsNode] self ∅ w1 = (Ok results, w2) ->
     good_sections self w =
     (match results !! "good_sections" with
      | Some sections => Ok sections
      | None => Raise (KeyError "good_sections")
      end, w2)) /\
  (forall e w2,
     Pipeline_run [LocateGoodSectionsNode] self ∅ w1 = (Raise e, w2) ->
     good_sections self w = (Raise e, w2)).
Proof.
  intros Hm Hst w1.
  assert (Hrun : forall k : gmap string Artifact -> M Artifact,
            (create (NewNode LocateGoodSectionsNode) ;;
             let* results := _run_pipeline self [LocateGoodSectionsNode] ∅
             in k results) w =
            match Pipeline_run [LocateGoodSectionsNode] self ∅ w1 with
            | (Ok results, w2) => k results w2
            | (Raise e, w2) => (Raise e, w2)
            end).
  { intros k. unfold bind at 1. unfold create at 1, modify at 1.
    unfold bind at 1.
    rewrite (run_pipeline_set _ self m st); [|done|done].
    unfold set_created. simpl. rewrite <- app_assoc. done. }
  split.
  - intros results w2 Hpipe. unfold good_sections. rewrite Hrun, Hpipe.
    unfold getitem. by destruct (results !! "good_sections").
  - intros e w2 Hpipe. unfold good_sections. by rewrite Hrun, Hpipe.
Qed.
End PipelineFacts.

(** ** More runs on the small dataset *)

Section Scenarios2.
Import Example Example2.

Lemma loaded_A :
  heap loaded !! A =
  Some (MkMeter (Some (hdf EnviR))
          ["/building1/elec/meter2"; "/building1/elec/meter3"]
          ["fridge"] (set_md_device EnviR sub_md)).
Proof. vm_compute. reflexivity. Qed.

Lemma kitchen_A :
  heap kitchen !! A = Some (MkMeter None [] ["kettle"; "fridge"; "broken"] sub_md).
Proof. vm_compute. reflexivity. Qed.

Lemma matches_any_scenario :
  exists b,
    matches A "fridge" loaded = (Ok b, loaded) /\
    (b = true <->
     exists a, a ∈ ["fridge"] /\ Appliance_matches a "fridge" = Ok true).
Proof.
  refine (matches_any loaded A _ "fridge" loaded_A _).
  simpl. intros a Ha%list_elem_of_singleton. subst a. by eexists.
Defined.

Lemma matches_stops_at_first_scenario :
  Appliance_matches "broken" "fridge" = Raise (External "KeyError") /\
  matches A "fridge" kitchen = (Ok true, kitchen).
Proof.
  split; [reflexivity|].
  refine (proj1 (matches_stops_at_first kitchen A _ "fridge" ["kettle"] ["broken"]
                   "fridge" kitchen_A eq_refl _) eq_refl).
  intros x Hx%list_elem_of_singleton. by subst x.
Defined.

Lemma load_succeeds_scenario :
  (exists w', load_call A (hdf EnviR) (StrArg "/building1/elec/meter2") site_loaded
              = (Ok tt, w')) /\
  ~ (exists w', load_call A (hdf EnviR) (OtherArg "int") site_loaded = (Ok tt, w')).
Proof.
  split.
  - eexists.
    refine (proj2 (load_succeeds_iff site_loaded _ A _ (hdf EnviR)
                     (StrArg "/building1/elec/meter2") site_loaded_A) _).
    exists "/building1/elec/meter2", sub_md, (MkKey (Some 2) 1), 2,
           (root_md EnviR), "EnviR", EnviR, ["fridge"].
    split; [reflexivity|].
    split; [reflexivity|]. split; [reflexivity|]. split; [reflexivity|].
    split; [reflexivity|]. split; [reflexivity|].
    split; [vm_compute; reflexivity|].
    split; [by repeat constructor|reflexivity].
  - intros [w' Hw'].
    destruct (proj1 (load_succeeds_iff site_loaded w' A _ (hdf EnviR)
                       (OtherArg "int") site_loaded_A) Hw')
      as (s & ? & ? & ? & ? & ? & ? & ? & Hkey & _).
    discriminate Hkey.
Defined.

Lemma load_again_scenario :
  exists m1 w2,
    heap loaded !! A = Some m1 /\
    load A (hdf EnviR) "/building1/elec/meter2" loaded = (Ok tt, w2) /\
    appliances m1 = ["fridge"] /\
    (exists m2, heap w2 !! A = Some m2 /\ appliances m2 = ["fridge"; "fridge"]).
Proof.
  destruct (load_again_appends_appliances site_loaded loaded A _ (hdf EnviR)
              "/building1/elec/meter2" site_loaded_A load_A)
    as (m1 & apps & Hm1 & Happs & Hagain).
  exists m1. eexists. split; [exact Hm1|]. split; [exact Hagain|].
  rewrite loaded_A in Hm1. injection Hm1 as <-. simpl in Happs.
  subst apps.
  split; [reflexivity|]. eexists. split; [apply heap_set_heap_insert|reflexivity].
Defined.

Lemma two_meters_A :
  heap two_meters !! A = Some (MkMeter None [] [] sub_md).
Proof. vm_compute. reflexivity. Qed.

Lemma load_fails_early_scenario :
  load A empty_hdf "/building1/elec/meter2" two_meters =
  (Raise (KeyError "/building1/elec/meter2"),
   set_heap <[A := MkMeter (Some empty_hdf) [] [] sub_md]> two_meters).
Proof.
  exact (proj1 (load_fails_early two_meters A _ empty_hdf "/building1/elec/meter2"
                  (KeyError "/building1/elec/meter2") two_meters_A) eq_refl).
Defined.

Lemma load_fails_on_device_scenario :
  exists w',
    load A odd_hdf "/building1/elec/meter2" two_meters = (Raise (KeyError "Unknown"), w') /\
    meter_devices w' !! "EnviR" = Some EnviR /\
    meters w' = meters two_meters.
Proof.
  eexists. split.
  - refine (proj2 (proj2 (load_fails_on_device two_meters A _ odd_hdf
                            "/building1/elec/meter2" odd_md (MkKey (Some 2) 1) 2
                            two_meters_A eq_refl eq_refl eq_refl))
              (root_md EnviR) "Unknown" eq_refl eq_refl _).
    vm_compute. reflexivity.
  - split; [vm_compute; reflexivity|reflexivity].
Defined.

Lemma load_touches_only_self_scenario :
  heap loaded !! B = heap site_loaded !! B /\
  created loaded = created site_loaded.
Proof.
  pose proof (load_touches_only_self site_loaded A (hdf EnviR)
                "/building1/elec/meter2") as Hframe.
  rewrite load_A in Hframe. destruct Hframe as (Hother & _ & Hlog & _).
  split; [by apply Hother|exact Hlog].
Defined.

Lemma load_attaches_store_past_check_scenario :
  load_call A (hdf EnviR) (OtherArg "int") two_meters = (Raise AssertionError, two_meters) /\
  fst (load_call A (hdf EnviR) (StrArg "/building1") two_meters) = Raise AssertionError /\
  store_attached A (hdf EnviR)
    (snd (load_call A (hdf EnviR) (StrArg "/building1") two_meters)).
Proof.
  pose proof (load_attaches_store_past_check two_meters A _ (hdf EnviR) two_meters_A)
    as [Hstop Hpast].
  split; [exact (Hstop "int")|].
  split; [vm_compute; reflexivity|].
  exact (proj1 (Hpast "/building1")).
Defined.

Lemma queries_leave_world_scenario :
  upstream_meter A two_meters = (Ok B, two_meters) /\
  snd (upstream_meter A two_meters) = two_meters /\
  snd (available_ac_types A loaded) = loaded.
Proof.
  split; [vm_compute; reflexivity|].
  split; [exact (proj1 (queries_leave_world two_meters A))|].
  exact (proj2 (proj2 (queries_leave_world loaded A))).
Defined.

Lemma upstream_meter_of_itself_scenario :
  upstream_meter 1%positive looped = (Ok 1%positive, looped).
Proof.
  refine (upstream_meter_of_itself looped 1%positive (MkMeter None [] [] loop_md) 2
            _ eq_refl eq_refl eq_refl _ _).
  - vm_compute. reflexivity.
  - lia.
  - vm_compute. reflexivity.
Defined.

Lemma site_loaded_A_sub :
  heap site_loaded !! A = Some (MkMeter None [] [] sub_md).
Proof. vm_compute. reflexivity. Qed.

Lemma loaded_meter_is_upstream_scenario :
  upstream_meter A site_loaded = (Ok B, site_loaded).
Proof.
  refine (loaded_meter_is_upstream two_meters site_loaded B A _ _ (hdf EnviR)
            "/building1/elec/meter1" site_md 1 two_meters_B load_B eq_refl
            site_loaded_A_sub eq_refl _ eq_refl eq_refl eq_refl).
  lia.
Defined.

Lemma second_construction_wins_scenario :
  exists a b w1 w2,
    __init__ (Some site_md) empty_world = (Ok a, w1) /\
    __init__ (Some site_md) w1 = (Ok b, w2) /\
    a ≠ b /\
    meters w2 !! MkID (Some 1) (Some 1) (Some "D") = Some b.
Proof.
  destruct (second_construction_wins empty_world (Some site_md) (Some site_md) eq_refl)
    as (a & b & w1 & w2 & H1 & H2 & Hne & _ & _ & Hreg).
  exists a, b, w1, w2. repeat split; done.
Defined.

Lemma available_ac_types_follows_table_scenario :
  let w'' := snd (_load_meter_devices (hdf EnviR_v2) loaded) in
  exists acs m',
    available_ac_types A w'' = (Ok acs, w'') /\
    map Power acs = [Power "active"] /\
    heap w'' !! A = Some m' /\
    md_device (metadata m') = Some EnviR.
Proof.
  destruct (available_ac_types_follows_table site_loaded loaded A _ (hdf EnviR)
              (hdf EnviR_v2) "/building1/elec/meter2" sub_md (root_md EnviR_v2)
              "EnviR" {[ "EnviR" := EnviR_v2 ]} EnviR_v2 [Power "active"]
              site_loaded_A load_A eq_refl eq_refl eq_refl eq_refl)
    as (acs & m' & Hrun & Hacs & Hm' & Hcache).
  { vm_compute. reflexivity. }
  { reflexivity. }
  exists acs, m'. split; [exact Hrun|]. split; [exact Hacs|].
  split; [exact Hm'|]. rewrite Hcache. vm_compute. reflexivity.
Defined.

Lemma lonely_1 :
  heap lonely !! 1%positive = Some (MkMeter None [] [] site_md).
Proof. vm_compute. reflexivity. Qed.

Lemma available_ac_types_errors_scenario :
  device 1%positive lonely = (Raise (KeyError "EnviR"), lonely) /\
  available_ac_types 1%positive lonely = (Raise (KeyError "EnviR"), lonely).
Proof.
  refine (proj1 (proj2 (available_ac_types_errors lonely 1%positive _ lonely_1))
            "EnviR" eq_refl _).
  vm_compute. reflexivity.
Defined.

Lemma available_ac_types_membership_scenario :
  exists acs,
    available_ac_types A loaded = (Ok acs, loaded) /\
    (forall t, t ∈ acs <-> Power t ∈ [Power "apparent"; Voltage; Power "active"]) /\
    (length acs <= 3)%nat.
Proof.
  refine (available_ac_types_membership loaded A _ "EnviR" EnviR _ loaded_A
            eq_refl _ eq_refl).
  vm_compute. reflexivity.
Defined.

Lemma load_meter_devices_noop_scenario :
  _load_meter_devices empty_hdf loaded = (Raise (KeyError "/"), loaded).
Proof.
  exact (proj1 (load_meter_devices_noop empty_hdf loaded) (KeyError "/") eq_refl).
Defined.

Lemma load_meter_devices_twice_scenario :
  snd (_load_meter_devices eco_hdf (snd (_load_meter_devices (hdf EnviR) empty_world)))
  = snd (_load_meter_devices (hdf EnviR) (snd (_load_meter_devices eco_hdf empty_world))).
Proof.
  refine (proj2 (load_meter_devices_twice (hdf EnviR) eco_hdf empty_world
                   (root_md EnviR) _ {[ "EnviR" := EnviR ]} {[ "Eye" := Eco ]}
                   eq_refl eq_refl eq_refl eq_refl) _).
  rewrite !dom_singleton_L. apply disjoint_singleton_l.
  rewrite elem_of_singleton. discriminate.
Defined.

Lemma total_energy_scenario :
  fst (total_energy A ∅ loaded) = Ok 0.
Proof.
  rewrite (proj1 (@total_energy_runs_pipeline appliance_class pipeline_class
                    loaded A _ (hdf EnviR) ∅
                    loaded_A eq_refl
                    ltac:(rewrite dom_empty_L; apply not_elem_of_empty)
                    ltac:(rewrite dom_empty_L; apply not_elem_of_empty))
             {[ "energy" := 0; "good_sections" := 0 ]}
             (set_created
                (fun log => log ++ [NewNode ClipNode; NewNode EnergyNode;
                                    NewPipeline [ClipNode; EnergyNode]]) loaded)
             eq_refl).
  vm_compute. reflexivity.
Defined.

Lemma good_sections_scenario :
  fst (good_sections A loaded) = Ok 0.
Proof.
  rewrite (proj1 (@good_sections_runs_pipeline appliance_class pipeline_class
                    loaded A _ (hdf EnviR)
                    loaded_A eq_refl)
             {[ "energy" := 0; "good_sections" := 0 ]}
             (set_created
                (fun log => log ++ [NewNode LocateGoodSectionsNode;
                                    NewPipeline [LocateGoodSectionsNode]]) loaded)
             eq_refl).
  vm_compute. reflexivity.
Defined.
End Scenarios2.

Section Scenarios3.
Import Example Example3.

Lemma haunted_1 :
  heap haunted !! 1%positive =
  Some (@MkMeter fragile_class None [] [] (@empty_metadata fragile_class)).
Proof. vm_compute. reflexivity. Qed.

Lemma load_fails_in_appliances_scenario :
  exists w',
    @load key_class fragile_class 1%positive haunted_hdf
          "/building1/elec/meter2" haunted
    = (Raise (External "KeyError"), w') /\
    heap w' !! 1%positive =
      Some (@MkMeter fragile_class (Some haunted_hdf)
              ["/building1/elec/meter2"] ["fridge"]
              (set_md_device EnviR haunted_md)) /\
    meters w' = meters haunted.
Proof.
  exact (@load_fails_in_appliances key_class fragile_class haunted 1%positive _
           haunted_hdf "/building1/elec/meter2" haunted_md haunted_root
           (MkKey (Some 2) 1) 2 "EnviR" EnviR ["fridge"] ["kettle"] "ghost"
           ["fridge"] (External "KeyError")
           haunted_1 eq_refl eq_refl eq_refl eq_refl eq_refl
           ltac:(vm_compute; reflexivity) eq_refl
           ltac:(by repeat constructor) eq_refl).
Defined.
End Scenarios3.
